(** * A shallow embedding of [src/mermaid_generator.py] (StudentTools)

    Python [str] values are modelled as Rocq [string]s (byte strings); the
    model is exact for ASCII text. Python exceptions are the constructors of
    [exc]; a Python function that may raise returns [exc + A]. Network calls
    to the completion service are requests answered by an abstract [server]
    and recorded, in order, in a trace. *)

From Stdlib Require Import String Ascii ZArith List Lia Bool.
From Stdlib Require Import Numbers.DecimalString.
Import ListNotations.
Open Scope string_scope.

(* ================================================================== *)
(** ** Characters and Python string primitives *)

Definition dq : ascii := ascii_of_nat 34.          (* the double-quote character *)
Definition backtick : ascii := ascii_of_nat 96.
Definition nl : ascii := ascii_of_nat 10.
Definition colon : ascii := ascii_of_nat 58.
Definition comma : ascii := ascii_of_nat 44.
Definition lbrace : ascii := ascii_of_nat 123.
Definition rbrace : ascii := ascii_of_nat 125.

Definition str1 (c : ascii) : string := String c EmptyString.
Definition nl_s : string := str1 nl.
Definition fence : string := String backtick (String backtick (str1 backtick)).

(** [str.isspace] on ASCII: \t \n \v \f \r, \x1c-\x1f and space; this is
    also the class [\s] of Python's [re] on [str] patterns. *)
Definition is_space (c : ascii) : bool :=
  let n := nat_of_ascii c in
  ((Nat.leb 9 n) && (Nat.leb n 13)) || ((Nat.leb 28 n) && (Nat.leb n 32)).

(** [\d] (ASCII digits). *)
Definition is_digit (c : ascii) : bool :=
  let n := nat_of_ascii c in (Nat.leb 48 n) && (Nat.leb n 57).

(** [[a-zA-Z0-9_]] *)
Definition is_word (c : ascii) : bool :=
  let n := nat_of_ascii c in
  is_digit c || ((Nat.leb 65 n) && (Nat.leb n 90)) || ((Nat.leb 97 n) && (Nat.leb n 122))
  || (Nat.eqb n 95).

Fixpoint lstrip_by (p : ascii -> bool) (s : string) : string :=
  match s with
  | EmptyString => EmptyString
  | String c r => if p c then lstrip_by p r else s
  end.

Fixpoint rev_str (s : string) : string :=
  match s with
  | EmptyString => EmptyString
  | String c r => rev_str r ++ str1 c
  end.

Definition rstrip_by (p : ascii -> bool) (s : string) : string :=
  rev_str (lstrip_by p (rev_str s)).

(** [s.strip()] *)
Definition strip (s : string) : string :=
  rstrip_by is_space (lstrip_by is_space s).

(** [s.startswith(p)] *)
Definition startswith (s p : string) : bool := String.prefix p s.

(** [s.startswith(tuple)] *)
Definition startswith_any (s : string) (ps : list string) : bool :=
  existsb (startswith s) ps.

(** [sub in s] *)
Fixpoint contains (sub s : string) : bool :=
  startswith s sub ||
  match s with
  | EmptyString => false
  | String _ r => contains sub r
  end.

(** [s.split('\n')]: the current chunk is accumulated in reverse. *)
Fixpoint split_nl_acc (acc : string) (s : string) : list string :=
  match s with
  | EmptyString => [rev_str acc]
  | String c r =>
      if Ascii.eqb c nl then rev_str acc :: split_nl_acc EmptyString r
      else split_nl_acc (String c acc) r
  end.

Definition split_nl (s : string) : list string := split_nl_acc EmptyString s.

(** ['\n'.join(ls)] *)
Definition join_nl (ls : list string) : string := String.concat nl_s ls.

(** [s[:n]] *)
Definition take (n : nat) (s : string) : string := String.substring 0 n s.

(** [s.lower()] on ASCII. *)
Definition lower_char (c : ascii) : ascii :=
  let n := nat_of_ascii c in
  if (Nat.leb 65 n) && (Nat.leb n 90) then ascii_of_nat (n + 32) else c.

Fixpoint lower (s : string) : string :=
  match s with
  | EmptyString => EmptyString
  | String c r => String (lower_char c) (lower r)
  end.

(** [str(n)] for a natural number. *)
Definition nat_to_string (n : nat) : string :=
  NilEmpty.string_of_uint (Nat.to_uint n).

(* ================================================================== *)
(** ** Python exceptions *)

(** The messages of the [ValueError]s raised by the module. *)
Inductive value_msg :=
| NoApiKey                   (* "User did not provide an API Key." *)
| UnsupportedType (t : string)  (* f"Unsupported diagram type: {diagram_type}" *)
| NoChoices                  (* "API returned no choices" *)
| EmptyResponse              (* "Empty response from AI model." *)
| NoMermaid (excerpt : string)
    (* f"Could not find valid Mermaid diagram. Got: {repr(text[:200])}" *)
| BadFormat                  (* str.format: a lone brace in the template *)
| IntTooLong (digits : nat)
    (* int(): "Exceeds the limit (4300 digits) for integer string conversion" *)
.

Inductive exc :=
| ValueError (m : value_msg)
| KeyError
| IndexError
| TypeError
| AttributeError
| JSONDecodeError              (* a subclass of ValueError *)
| HTTPStatusError (status : Z)  (* httpx, raised by raise_for_status *)
| TransportError                (* httpx network failure or timeout *)
| ConnectionError (m : conn_msg)
with conn_msg :=
| InvalidMermaid (e : exc)      (* f"AI returned invalid Mermaid code: {e}" *)
| ApiFailed (e : exc)           (* f"AI API failed: {e}" *)
.

(** [isinstance(e, ValueError)] *)
Definition is_value_error (e : exc) : bool :=
  match e with
  | ValueError _ | JSONDecodeError => true
  | _ => false
  end.

(** The exception class, ignoring the message. *)
Inductive exc_class :=
| CValueError | CKeyError | CIndexError | CTypeError | CAttributeError
| CJSONDecodeError | CHTTPStatusError | CTransportError | CConnectionError.

Definition class_of (e : exc) : exc_class :=
  match e with
  | ValueError _ => CValueError
  | KeyError => CKeyError
  | IndexError => CIndexError
  | TypeError => CTypeError
  | AttributeError => CAttributeError
  | JSONDecodeError => CJSONDecodeError
  | HTTPStatusError _ => CHTTPStatusError
  | TransportError => CTransportError
  | ConnectionError _ => CConnectionError
  end.

Definition result (A : Type) := (exc + A)%type.

Definition ret {A} (a : A) : result A := inr a.
Definition raise {A} (e : exc) : result A := inl e.
Definition bind {A B} (m : result A) (k : A -> result B) : result B :=
  match m with inl e => inl e | inr a => k a end.

Notation "x <- m ;; k" := (bind m (fun x => k))
  (at level 61, m at next level, right associativity).

(* ================================================================== *)
(** ** [extract_mermaid_code] *)

(** Lazy [(.*?)```] under DOTALL: the text before the first fence, and
    what follows that fence. *)
(** [s[n:]] *)
Fixpoint drop (n : nat) (s : string) : string :=
  match n, s with
  | O, _ => s
  | S _, EmptyString => EmptyString
  | S n', String _ r => drop n' r
  end.

Fixpoint find_fence (s : string) : option (string * string) :=
  if startswith s fence then Some (EmptyString, drop 3 s)
  else match s with
       | EmptyString => None
       | String c r =>
           match find_fence r with
           | Some (b, a) => Some (String c b, a)
           | None => None
           end
       end.

(** [```(?:mermaid)?\n(.*?)```] anchored at the start of [s]; the group
    ["mermaid"] is tried first, then the empty alternative. *)
Definition fence_at (s : string) : option string :=
  if startswith s fence then
    let r := drop 3 s in
    match (if startswith r ("mermaid" ++ nl_s) then find_fence (drop 8 r) else None) with
    | Some (body, _) => Some body
    | None =>
        if startswith r nl_s then
          match find_fence (drop 1 r) with
          | Some (body, _) => Some body
          | None => None
          end
        else None
    end
  else None.

(** [re.search] of that pattern: group 1 of the leftmost match. *)
Fixpoint search_fence (s : string) : option string :=
  match fence_at s with
  | Some b => Some b
  | None =>
      match s with
      | EmptyString => None
      | String _ r => search_fence r
      end
  end.

Definition valid_starts : list string :=
  ["flowchart"; "graph"; "sequenceDiagram"; "classDiagram"; "stateDiagram";
   "erDiagram"; "journey"; "gantt"; "pie"; "quadrantChart"; "mindmap";
   "timeline"; "gitGraph"; "sankey-beta"; "xychart-beta"; "block-beta"; "kanban"].

(** [for i, line in enumerate(lines): if line.strip().startswith(valid_starts): ...] *)
Fixpoint first_keyword_line (lines : list string) : option (list string) :=
  match lines with
  | [] => None
  | l :: ls =>
      if startswith_any (strip l) valid_starts then Some (l :: ls)
      else first_keyword_line ls
  end.

Definition extract_mermaid_code (text0 : string) : result string :=
  let text := strip text0 in
  match search_fence text with
  | Some body => ret (strip body)
  | None =>
      match first_keyword_line (split_nl text) with
      | Some rest => ret (strip (join_nl rest))
      | None => raise (ValueError (NoMermaid (take 200 text)))
      end
  end.

(* ================================================================== *)
(** ** [sanitize_mermaid_code] *)

(** The regular-expression substitutions below scan the string left to
    right like [re.sub]: after a match consuming [m] characters the scanner
    skips the remaining [m - 1] characters of the original string (the
    counter [k]), so each function stays structurally recursive. *)

Fixpoint take_while (p : ascii -> bool) (s : string) : string :=
  match s with
  | EmptyString => EmptyString
  | String c r => if p c then String c (take_while p r) else EmptyString
  end.

(** [re.sub(r"```(?:mermaid)?", "", code)] *)
Fixpoint remove_fences_go (k : nat) (s : string) : string :=
  match s with
  | EmptyString => EmptyString
  | String c r =>
      match k with
      | S k' => remove_fences_go k' r
      | O =>
          if startswith s fence then
            if startswith (drop 3 s) "mermaid" then remove_fences_go 9 r
            else remove_fences_go 2 r
          else String c (remove_fences_go 0 r)
      end
  end.

Definition remove_fences (s : string) : string := remove_fences_go 0 s.

Definition is_brace (c : ascii) : bool := Ascii.eqb c lbrace || Ascii.eqb c rbrace.

(** [re.sub(r'(?<!\{)\{([^{}]+)\}(?!\})', r'{{\1}}', code)]; [prev] is the
    character of the original string before the current position (the
    look-behind reads the original string). *)
Fixpoint brace_sub_go (prev : option ascii) (k : nat) (s : string) : string :=
  match s with
  | EmptyString => EmptyString
  | String c r =>
      match k with
      | S k' => brace_sub_go (Some c) k' r
      | O =>
          let not_after_lbrace :=
            match prev with Some p => negb (Ascii.eqb p lbrace) | None => true end in
          let run := take_while (fun x => negb (is_brace x)) r in
          let rest := drop (String.length run) r in
          if Ascii.eqb c lbrace && not_after_lbrace
             && negb (String.eqb run EmptyString)
             && startswith rest (str1 rbrace)
             && negb (startswith (drop 1 rest) (str1 rbrace))
          then "{{" ++ run ++ "}}" ++ brace_sub_go (Some c) (String.length run + 1) r
          else String c (brace_sub_go (Some c) 0 r)
      end
  end.

Definition brace_sub (s : string) : string := brace_sub_go None 0 s.

(** The shape [\{\{ ... \}\}] shared by the last two flowchart patterns: all
    their groups exclude ['}'], so the label interior [seg] is the maximal
    run of non-['}'] characters after ["{{"] and must be followed by ["}}"];
    [f seg] is the rewritten interior, or [None] when the inner pattern
    does not match [seg]. *)
Fixpoint label_sub_go (f : string -> option string) (k : nat) (s : string) : string :=
  match s with
  | EmptyString => EmptyString
  | String c r =>
      match k with
      | S k' => label_sub_go f k' r
      | O =>
          let seg := take_while (fun x => negb (Ascii.eqb x rbrace)) (drop 2 s) in
          let after := drop (2 + String.length seg) s in
          if startswith s "{{" && startswith after "}}" then
            match f seg with
            | Some seg' => "{{" ++ seg' ++ "}}" ++ label_sub_go f (String.length seg + 3) r
            | None => String c (label_sub_go f 0 r)
            end
          else String c (label_sub_go f 0 r)
      end
  end.

(** Remove the first character satisfying [p]. *)
Fixpoint remove_first (p : ascii -> bool) (s : string) : option string :=
  match s with
  | EmptyString => None
  | String c r =>
      if p c then Some r
      else match remove_first p r with
           | Some r' => Some (String c r')
           | None => None
           end
  end.

(** The pattern [\{\{(A)Q(B)Q(A)\}\}], with Q the double quote, A the class
    [[^}]] repeated and B the class [[^Q}]] repeated, replaced by
    [{{\1\2\3}}]: the greedy first group puts
    the match on the last two double quotes of the interior. *)
Definition drop_last_quote_pair (seg : string) : option string :=
  match remove_first (fun x => Ascii.eqb x dq) (rev_str seg) with
  | Some r1 =>
      match remove_first (fun x => Ascii.eqb x dq) r1 with
      | Some r2 => Some (rev_str r2)
      | None => None
      end
  | None => None
  end.

Definition is_qe (c : ascii) : bool := Ascii.eqb c "?"%char || Ascii.eqb c "!"%char.

(** The pattern [\{\{(A)[?!](A)\}\}], A as above, replaced by [{{\1\2}}]:
    the last [?] or [!] of the interior. *)
Definition drop_last_punct (seg : string) : option string :=
  match remove_first is_qe (rev_str seg) with
  | Some r => Some (rev_str r)
  | None => None
  end.

Definition quote_sub (s : string) : string := label_sub_go drop_last_quote_pair 0 s.
Definition punct_sub (s : string) : string := label_sub_go drop_last_punct 0 s.

(** [re.search(r':[a-zA-Z0-9_]+,', line)] *)
Fixpoint has_task_id (s : string) : bool :=
  match s with
  | EmptyString => false
  | String c r =>
      (Ascii.eqb c colon &&
         let w := take_while is_word r in
         negb (String.eqb w EmptyString) && startswith (drop (String.length w) r) ",")
      || has_task_id r
  end.

Definition not_comma (c : ascii) : bool := negb (Ascii.eqb c comma).

Definition is_date_char (c : ascii) : bool := is_digit c || Ascii.eqb c "-"%char.

(** [(?:after|des|active)\s+[^,]+] at the start of [r]: the text of the match. *)
Definition ref_alt (r : string) : option string :=
  match find (startswith r) ["after"; "des"; "active"] with
  | None => None
  | Some kw =>
      let r2 := drop (String.length kw) r in
      let w := take_while is_space r2 in
      let t := take_while not_comma (drop (String.length w) r2) in
      if String.eqb w EmptyString then None
      else if negb (String.eqb t EmptyString) then Some (kw ++ w ++ t)
      else if Nat.leb 2 (String.length w) then Some (kw ++ w)   (* [\s+] gives one back *)
      else None
  end.

(** After a [:]: group 1 is [\s] repeated (greedy), group 2 is [ref_alt] or
    [[\d-]+]; the length of group 1 and the text of group 2. *)
Definition gantt_match (r : string) : option (nat * string) :=
  let ws := take_while is_space r in
  let r1 := drop (String.length ws) r in
  match ref_alt r1 with
  | Some g => Some (String.length ws, g)
  | None =>
      let d := take_while is_date_char r1 in
      if String.eqb d EmptyString then None else Some (String.length ws, d)
  end.

(** [re.sub(r':(\s* )((?:after|des|active)\s+[^,]+|[\d-]+)', rf':task{task_counter}, \2', line)]
    (the space after the first star keeps this comment open; it is not in
    the pattern). *)
Fixpoint gantt_sub_go (n : nat) (k : nat) (s : string) : string :=
  match s with
  | EmptyString => EmptyString
  | String c r =>
      match k with
      | S k' => gantt_sub_go n k' r
      | O =>
          if Ascii.eqb c colon then
            match gantt_match r with
            | Some (wl, g) =>
                ":task" ++ nat_to_string n ++ ", " ++ g
                  ++ gantt_sub_go n (wl + String.length g) r
            | None => String c (gantt_sub_go n 0 r)
            end
          else String c (gantt_sub_go n 0 r)
      end
  end.

Definition gantt_sub (n : nat) (line : string) : string := gantt_sub_go n 0 line.

(** The condition of the [if] in the Gantt loop. *)
Definition is_task_candidate (line : string) : bool :=
  contains ":" line && negb (contains "section" (lower line)) && negb (has_task_id line).

(** [for line in lines: ...] with [task_counter]. *)
Fixpoint gantt_loop (lines : list string) (task_counter : nat) : list string :=
  match lines with
  | [] => []
  | line :: ls =>
      if is_task_candidate line
      then gantt_sub task_counter line :: gantt_loop ls (S task_counter)
      else line :: gantt_loop ls task_counter
  end.

Definition prose_markers : list string :=
  ["note:"; "explanation:"; "this diagram"; "the above"].

(** The trailing-prose loop with its [break]. *)
Fixpoint until_prose (lines : list string) : list string :=
  match lines with
  | [] => []
  | line :: ls =>
      if startswith_any (lower (strip line)) prose_markers then []
      else line :: until_prose ls
  end.

Definition sanitize_mermaid_code (code0 : string) (diagram_type : string) : string :=
  let code1 := strip (remove_fences code0) in
  let code2 :=
    if String.eqb diagram_type "Flowchart"
    then punct_sub (quote_sub (brace_sub code1)) else code1 in
  let code3 :=
    if String.eqb diagram_type "Gantt"
    then join_nl (gantt_loop (split_nl code2) 1) else code2 in
  strip (join_nl (until_prose (split_nl code3))).

(* ================================================================== *)
(** ** [PROMPTS] *)

(** The templates below are the string values of the [PROMPTS] dictionary
    (after Python's escape processing, e.g. the source's [\\n] is the two
    characters backslash and n). A Rocq string literal cannot hold a lone
    double quote, so the templates are written with [~] in its place (the
    templates contain no [~]) and decoded by [py_lit]. *)
Fixpoint py_lit (s : string) : string :=
  match s with
  | EmptyString => EmptyString
  | String c r => String (if Ascii.eqb c "~"%char then dq else c) (py_lit r)
  end.

Definition prompt_flowchart : string := py_lit
"
You are a Mermaid.js expert. Generate ONLY valid Mermaid flowchart code.
Start with 'flowchart TD'.

Use this structure for educational diagrams:
- Main concept as first node: A[~Water Cycle: The continuous movement of water on, above, and below Earth's surface~]
- Then show stages as rectangles with SHORT explanations (max 2 lines, use \n for line break)
- Example: B[~Evaporation\nSun heats water → vapor rises~]
- Use simple arrows: A --> B
- Close the cycle: LastNode --> FirstStage

Valid node shapes:
- Rectangle: A[~Text~]
- Stadium: C([~Start/End~])

CRITICAL:
- Use \n for line breaks inside nodes
- Keep each line under 30 characters
- DO NOT use diamonds or circles
- Output ONLY code, no explanations

Generate a flowchart for: {description}
".

Definition prompt_sequence_diagram : string := py_lit
"
You are a Mermaid.js v11+ expert. Generate ONLY valid Mermaid sequence diagram code.
The code must start with 'sequenceDiagram'.

Example:
sequenceDiagram
    participant User
    participant App
    User->>App: Login Request
    App-->>User: Authentication Success

Now generate a sequence diagram for:
{description}

RULES:
- Output ONLY raw Mermaid code. No explanations.
- Define participants before using them.
".

Definition prompt_class_diagram : string := py_lit
"
You are a Mermaid.js v11+ expert. Generate ONLY valid Mermaid class diagram code.
The code must start with 'classDiagram'.

Example:
classDiagram
    class Animal {
        +String name
        +makeSound()
    }
    Animal <|-- Dog

Now generate a class diagram for:
{description}

RULES:
- Output ONLY raw Mermaid code. No explanations.
- Use +, -, # for visibility.
".

Definition prompt_state_diagram : string := py_lit
"
You are a Mermaid.js v11+ expert. Generate ONLY valid Mermaid state diagram code.
The code must start with 'stateDiagram-v2'.

Example:
stateDiagram-v2
    [*] --> Active
    Active --> Inactive : Deactivate
    Inactive --> Active : Activate

Now generate a state diagram for:
{description}

RULES:
- Output ONLY raw Mermaid code. No explanations.
- Use [*] for start/end states.
".

Definition prompt_er_diagram : string := py_lit
"
You are a Mermaid.js v11+ expert. Generate ONLY valid Mermaid ER diagram code.
The code must start with 'erDiagram'.

Relationship syntax:
- One to one: ||--||
- One to many: ||--o{{
- Many to one: }}o--||
- Many to many: }}o--o{{

Attributes syntax:
ENTITY {{
    type attributeName
}}

Example:
erDiagram
    CUSTOMER ||--o{{ ORDER : places
    ORDER ||--|{{ LINE-ITEM : contains
    PRODUCT ||--o{{ LINE-ITEM : ~ordered in~
    CUSTOMER {{
        int id
        string name
        string email
    }}
    ORDER {{
        int orderID
        date orderDate
    }}

Now generate an ER diagram for:
{description}

RULES:
- Output ONLY raw Mermaid code. No explanations.
- Use crow's foot notation correctly.
".

Definition prompt_user_journey : string := py_lit
"
You are a Mermaid.js v11+ expert. Generate ONLY valid Mermaid user journey code.
The code must start with 'journey'.

Example:
journey
    title User Login Flow
    section Authentication
      Enter credentials: 5: User
      Submit form: 3: User

Now generate a user journey for:
{description}

RULES:
- Output ONLY raw Mermaid code. No explanations.
- Include 'title' and 'section' headers.
".

Definition prompt_gantt : string := py_lit
"
You are a Mermaid.js v11+ expert. Generate ONLY valid Mermaid Gantt chart code.
The code must start with 'gantt' and include 'dateFormat YYYY-MM-DD'.

Example:
gantt
    dateFormat YYYY-MM-DD
    title Project Schedule
    section Phase 1
    Task A :a1, 2025-01-01, 5d
    Task B :a2, after a1, 3d
    section Phase 2
    Task C :a3, after a2, 4d

Now generate a Gantt chart for: {description}

CRITICAL RULES:
- Every task MUST have a unique ID like :a1, :a2, :a3
- Use 'after taskID' or specific dates
- NO spaces in task IDs
- Output ONLY raw Mermaid code
".

Definition prompt_pie_chart : string := py_lit
"
You are a Mermaid.js v11+ expert. Generate ONLY valid Mermaid pie chart code.
The code must start with 'pie'.

Example:
pie showData
    title Pets adopted by volunteers
    ~Dogs~ : 386
    ~Cats~ : 85

Now generate a pie chart for:
{description}

RULES:
- Output ONLY raw Mermaid code. No explanations.
- Labels must be in double quotes.
".

Definition prompt_quadrant_chart : string := py_lit
"
You are a Mermaid.js v11+ expert. Generate ONLY valid Mermaid quadrant chart code.
The code must start with 'quadrantChart'.

Example:
quadrantChart
    title Market Analysis
    x-axis Low Reach --> High Reach
    y-axis Low Engagement --> High Engagement
    quadrant-1 We should expand
    quadrant-2 Need to promote
    quadrant-3 Re-evaluate
    quadrant-4 May be improved
    Product A: [0.7, 0.8]

Now generate a quadrant chart for:
{description}

RULES:
- Output ONLY raw Mermaid code. No explanations.
- Define x-axis, y-axis, and all quadrants.
".

Definition prompt_timeline : string := py_lit
"
You are a Mermaid.js v11+ expert. Generate ONLY valid Mermaid timeline code.
The code must start with 'timeline'.

Example:
timeline
    title Project Timeline
    2025-01 : Kickoff
    2025-02 : Design phase

Now generate a timeline for:
{description}

RULES:
- Output ONLY raw Mermaid code. No explanations.
- Use YYYY-MM or YYYY-MM-DD for dates.
".

Definition prompt_sankey : string := py_lit
"
You are a Mermaid.js v11+ expert. Generate ONLY valid Mermaid Sankey diagram code.
The code must start with 'sankey-beta'.

Example:
sankey-beta
    Budget,Marketing,1000
    Budget,Development,2000
    Marketing,Online Ads,600

Now generate a Sankey diagram for:
{description}

RULES:
- Output ONLY raw Mermaid code. No explanations.
- Format is Source,Target,Value
".

Definition prompt_xy_chart : string := py_lit
"
You are a Mermaid.js v11+ expert. Generate ONLY valid Mermaid XY chart code.
The code must start with 'xychart-beta'.

Example:
xychart-beta
    title Sales Trend
    x-axis [Jan, Feb, Mar, Apr, May]
    y-axis ~Revenue~ 0 --> 100
    line [20, 45, 60, 55, 80]

Now generate an XY chart for:
{description}

RULES:
- Output ONLY raw Mermaid code. No explanations.
- Define title, x-axis, y-axis, and data.
".

Definition prompt_block_diagram : string := py_lit
"
You are a Mermaid.js v11+ expert. Generate ONLY valid Mermaid block diagram code.
The code must start with 'block-beta'.

Example:
block-beta
    columns 3
    Frontend Backend Database
    API[~API Layer~]
    Frontend --> API
    API --> Backend

Now generate a block diagram for:
{description}

RULES:
- Output ONLY raw Mermaid code. No explanations.
- Define columns first.
".

Definition prompt_kanban : string := py_lit
"
You are a Mermaid.js v11+ expert. Generate ONLY valid Mermaid Kanban board code.
The code must start with 'kanban'.

Example:
kanban
    Todo
        Task 1
        Task 2
    In Progress
        Task 3

Now generate a Kanban board for:
{description}

RULES:
- Output ONLY raw Mermaid code. No explanations.
- Use column names followed by indented tasks.
".

Definition prompt_gitgraph : string := py_lit
"
You are a Mermaid.js v11+ expert. Generate ONLY valid Mermaid git graph code.
The code must start with 'gitGraph'.

Example:
gitGraph
    commit
    branch feature
    checkout feature
    commit
    checkout main
    merge feature

Now generate a git graph for:
{description}

RULES:
- Output ONLY raw Mermaid code. No explanations.
- Use commands: commit, branch, checkout, merge.
".

Definition prompt_mindmap : string := py_lit
"
You are a Mermaid.js v11+ expert. Generate ONLY valid Mermaid mindmap code.
The code must start with 'mindmap'. DO NOT use ::icon() syntax.

Example:
mindmap
  root((Project))
    Planning
      Goals
      Timeline
    Execution

Now generate a mindmap for:
{description}

RULES:
- Output ONLY raw Mermaid code. No explanations.
- Indent with 2 spaces per level.
- DO NOT use ::icon() syntax.
".

Definition PROMPTS : list (string * string) :=
  [("Flowchart", prompt_flowchart);
   ("Sequence Diagram", prompt_sequence_diagram);
   ("Class Diagram", prompt_class_diagram);
   ("State Diagram", prompt_state_diagram);
   ("ER Diagram", prompt_er_diagram);
   ("User Journey", prompt_user_journey);
   ("Gantt", prompt_gantt);
   ("Pie Chart", prompt_pie_chart);
   ("Quadrant Chart", prompt_quadrant_chart);
   ("Timeline", prompt_timeline);
   ("Sankey", prompt_sankey);
   ("XY Chart", prompt_xy_chart);
   ("Block Diagram", prompt_block_diagram);
   ("Kanban", prompt_kanban);
   ("GitGraph", prompt_gitgraph);
   ("Mindmap", prompt_mindmap)].

(* ================================================================== *)
(** ** [str.format(description=...)] *)

Fixpoint all_chars (p : ascii -> bool) (s : string) : bool :=
  match s with
  | EmptyString => true
  | String c r => p c && all_chars p r
  end.

(** The value of a replacement field [{f}] when [format] is called with the
    single keyword argument [description]. The field name is the text before
    the first [.], [[], [:] or [!]; an empty or numeric name refers to a
    positional argument (there are none: [IndexError]); any other name but
    [description] is a [KeyError]. Fields with an attribute, index,
    conversion or format spec do not occur in [PROMPTS] and are not
    modelled (they are treated as [BadFormat]). *)
Definition field_value (description f : string) : result string :=
  let name := take_while (fun c => negb (existsb (Ascii.eqb c) ["."; "["; ":"; "!"]%char)) f in
  if String.eqb name EmptyString then raise IndexError
  else if all_chars is_digit name then raise IndexError
  else if negb (String.eqb name "description") then raise KeyError
  else if String.eqb f name then ret description
  else raise (ValueError BadFormat).

(** [template.format(description=d)], scanning left to right: [fld] is
    [Some (depth, acc)] inside a replacement field ([acc] reversed, [depth]
    the number of unmatched inner opening braces), [None] in literal text.
    Doubled braces are literal braces; a lone [}] or an unterminated field
    is a [ValueError]. *)
Fixpoint format_go (d : string) (fld : option (nat * string)) (s : string) : result string :=
  match fld with
  | Some (depth, acc) =>
      match s with
      | EmptyString => raise (ValueError BadFormat)
      | String c r =>
          if Ascii.eqb c lbrace then format_go d (Some (S depth, String c acc)) r
          else if Ascii.eqb c rbrace then
            match depth with
            | O => v <- field_value d (rev_str acc) ;;
                   x <- format_go d None r ;;
                   ret (v ++ x)
            | S n => format_go d (Some (n, String c acc)) r
            end
          else format_go d (Some (depth, String c acc)) r
      end
  | None =>
      match s with
      | EmptyString => ret EmptyString
      | String c r =>
          if Ascii.eqb c lbrace then
            match r with
            | String c2 r2 =>
                if Ascii.eqb c2 lbrace then (x <- format_go d None r2 ;; ret (String c x))
                else format_go d (Some (O, EmptyString)) r
            | EmptyString => raise (ValueError BadFormat)
            end
          else if Ascii.eqb c rbrace then
            match r with
            | String c2 r2 =>
                if Ascii.eqb c2 rbrace then (x <- format_go d None r2 ;; ret (String c x))
                else raise (ValueError BadFormat)
            | EmptyString => raise (ValueError BadFormat)
            end
          else (x <- format_go d None r ;; ret (String c x))
      end
  end.

Definition py_format (template description : string) : result string :=
  format_go description None template.

(** [PROMPTS.get(diagram_type)] *)
Fixpoint lookup (k : string) (m : list (string * string)) : option string :=
  match m with
  | [] => None
  | (k', v) :: m' => if String.eqb k k' then Some v else lookup k m'
  end.

(* ================================================================== *)
(** ** The completion service: JSON replies and Python accessors *)

Set Warnings "-register-all".

(** A parsed JSON document (numbers are integers in this model). *)
Inductive json :=
| JNull
| JBool (b : bool)
| JNum (z : Z)
| JStr (s : string)
| JArr (l : list json)
| JObj (l : list (string * json)).

(** The answer to one HTTP POST: a transport failure (network error or
    timeout), or a response with its status and its body, [None] when the
    body is not valid JSON. *)
Inductive reply :=
| NetworkError
| Response (status : Z) (body : option json).

(** The three requests the module sends, with the data they carry. *)
Inductive request :=
| ScoreReq (api_key user_input : string)
| RefineReq (api_key user_input : string)
| GenReq (api_key prompt : string).

(** [json.loads] keeps the last of duplicated keys. *)
Fixpoint lookup_json (k : string) (l : list (string * json)) : option json :=
  match l with
  | [] => None
  | (k', v) :: l' =>
      match lookup_json k l' with
      | Some w => Some w
      | None => if String.eqb k k' then Some v else None
      end
  end.

(** [response.raise_for_status()] (httpx: every non-2xx status raises). *)
Definition raise_for_status (status : Z) : result unit :=
  if (200 <=? status)%Z && (status <? 300)%Z then ret tt
  else raise (HTTPStatusError status).

(** [response.json()] *)
Definition response_json (body : option json) : result json :=
  match body with Some j => ret j | None => raise JSONDecodeError end.

(** [x[k]] with a string key. *)
Definition getitem_key (x : json) (k : string) : result json :=
  match x with
  | JObj l => match lookup_json k l with Some v => ret v | None => raise KeyError end
  | _ => raise TypeError
  end.

(** [x[0]] *)
Definition getitem_0 (x : json) : result json :=
  match x with
  | JArr (v :: _) => ret v
  | JArr [] => raise IndexError
  | JStr (String c _) => ret (JStr (str1 c))
  | JStr EmptyString => raise IndexError
  | JObj _ => raise KeyError
  | _ => raise TypeError
  end.

(** [x.get(k, default)] *)
Definition py_get (x : json) (k : string) (default : json) : result json :=
  match x with
  | JObj l => match lookup_json k l with Some v => ret v | None => ret default end
  | _ => raise AttributeError
  end.

(** [x.strip()] *)
Definition strip_json (x : json) : result string :=
  match x with JStr s => ret (strip s) | _ => raise AttributeError end.

(** Python truthiness. *)
Definition truthy (x : json) : bool :=
  match x with
  | JNull => false
  | JBool b => b
  | JNum z => negb (Z.eqb z 0)
  | JStr s => negb (String.eqb s EmptyString)
  | JArr l => match l with [] => false | _ => true end
  | JObj l => match l with [] => false | _ => true end
  end.

(** The body of the [try] blocks of [score_prompt] and [refine_prompt] up to
    [data['choices'][0]['message']['content'].strip()]. *)
Definition choice_content (rep : reply) : result string :=
  match rep with
  | NetworkError => raise TransportError
  | Response status body =>
      _ <- raise_for_status status ;;
      data <- response_json body ;;
      cs <- getitem_key data "choices" ;;
      c0 <- getitem_0 cs ;;
      msg <- getitem_key c0 "message" ;;
      content <- getitem_key msg "content" ;;
      strip_json content
  end.

(* ================================================================== *)
(** ** [score_prompt] *)

Definition digit_value (c : ascii) : Z := Z.of_nat (nat_of_ascii c - 48).

(** [int(s)] on a string of ASCII digits. *)
Fixpoint int_acc (acc : Z) (s : string) : Z :=
  match s with
  | EmptyString => acc
  | String c r => int_acc (10 * acc + digit_value c)%Z r
  end.

(** CPython refuses to convert a decimal string of more than
    [sys.int_info.default_max_str_digits] = 4300 digits: [int] raises a
    [ValueError] without computing the value. *)
Definition max_str_digits : nat := 4300.

Definition py_int (s : string) : result Z :=
  if Nat.ltb max_str_digits (String.length s)
  then raise (ValueError (IntTooLong (String.length s)))
  else ret (int_acc 0 s).

(** [re.search(r'\d+', s).group()]: the first maximal run of digits. *)
Fixpoint search_digits (s : string) : option string :=
  match s with
  | EmptyString => None
  | String c r => if is_digit c then Some (take_while is_digit s) else search_digits r
  end.

(** [score_prompt(api_key, user_input)]: one call, every exception of the
    [try] block is caught and gives 3. *)
Definition score_prompt (server : request -> reply) (api_key user_input : string) : Z :=
  match choice_content (server (ScoreReq api_key user_input)) with
  | inr score_text =>
      match search_digits score_text with
      | Some m =>
          match py_int m with
          | inr score => Z.max 0 (Z.min 10 score)
          | inl _ => 3
          end
      | None => 3
      end
  | inl _ => 3
  end.

(* ================================================================== *)
(** ** [refine_prompt] *)

Definition is_quote_or_space (c : ascii) : bool := Ascii.eqb c dq || is_space c.

(** [re.sub(r'^["\s]+|["\s]+$', '', s)]: the leading and the trailing runs
    of double quotes and white space. *)
Definition strip_quotes (s : string) : string :=
  rstrip_by is_quote_or_space (lstrip_by is_quote_or_space s).

Definition refine_prompt (server : request -> reply) (api_key user_input : string) : string :=
  match choice_content (server (RefineReq api_key user_input)) with
  | inr refined => strip_quotes refined
  | inl _ => user_input
  end.

(* ================================================================== *)
(** ** [generate_mermaid_code] *)

(** The body of the final [try] block, from [response.raise_for_status()]
    to [return mermaid_code]. *)
Definition generation_try (diagram_type : string) (rep : reply) : result string :=
  match rep with
  | NetworkError => raise TransportError
  | Response status body =>
      _ <- raise_for_status status ;;
      data <- response_json body ;;
      choices <- py_get data "choices" (JArr []) ;;
      if negb (truthy choices) then raise (ValueError NoChoices) else
      c0 <- getitem_0 choices ;;
      message <- py_get c0 "message" (JObj []) ;;
      content <- py_get message "content" (JStr EmptyString) ;;
      ai_response <- strip_json content ;;
      if String.eqb ai_response EmptyString then raise (ValueError EmptyResponse) else
      mermaid_code <- extract_mermaid_code ai_response ;;
      ret (sanitize_mermaid_code mermaid_code diagram_type)
  end.

(** The [except ValueError] and [except Exception] handlers. *)
Definition generation_call (diagram_type : string) (rep : reply) : result string :=
  match generation_try diagram_type rep with
  | inr code => inr code
  | inl e =>
      if is_value_error e then raise (ConnectionError (InvalidMermaid e))
      else raise (ConnectionError (ApiFailed e))
  end.

(** [generate_mermaid_code(api_key, diagram_type, description)]: the
    requests sent to the completion service, in order, and the outcome. *)
Definition generate_mermaid_code (server : request -> reply)
    (api_key diagram_type description : string) : list request * result string :=
  if String.eqb api_key EmptyString then ([], raise (ValueError NoApiKey)) else
  let user_input := strip description in
  let score := score_prompt server api_key user_input in
  let '(calls, final_description) :=
    if (score <? 6)%Z
    then ([ScoreReq api_key user_input; RefineReq api_key user_input],
          refine_prompt server api_key user_input)
    else ([ScoreReq api_key user_input], user_input) in
  match lookup diagram_type PROMPTS with
  | None | Some EmptyString => (calls, raise (ValueError (UnsupportedType diagram_type)))
  | Some base_prompt =>
      match py_format base_prompt final_description with
      | inl e => (calls, inl e)
      | inr prompt =>
          ((calls ++ [GenReq api_key prompt])%list,
           generation_call diagram_type (server (GenReq api_key prompt)))
      end
  end.

(** A reply carrying [content] as the first choice's message content. *)
Definition ok_reply (content : string) : reply :=
  Response 200 (Some (JObj [("choices", JArr [JObj [("message", JObj [("content", JStr content)])]])])).

(** A completion service that answers every request with the same reply. *)
Definition const_server (rep : reply) : request -> reply := fun _ => rep.

(** A completion service answering scoring, refinement and generation
    requests with three fixed replies. *)
Definition stub_server (rs rr rg : reply) : request -> reply :=
  fun q => match q with ScoreReq _ _ => rs | RefineReq _ _ => rr | GenReq _ _ => rg end.

Definition no_backtick (s : string) : bool :=
  all_chars (fun c => negb (Ascii.eqb c backtick)) s.

(** The two calls made before the template lookup. *)
Definition pre_lookup_calls (server : request -> reply) (api_key user_input : string)
  : list request :=
  ScoreReq api_key user_input ::
    (if (score_prompt server api_key user_input <? 6)%Z
     then [RefineReq api_key user_input] else []).

Definition non_digit (c : ascii) : bool := negb (is_digit c).

(** [s] is empty or does not start with a digit. *)
Definition starts_non_digit (s : string) : bool :=
  match s with EmptyString => true | String c _ => non_digit c end.

Fixpoint exists_char (p : ascii -> bool) (s : string) : bool :=
  match s with
  | EmptyString => false
  | String c r => p c || exists_char p r
  end.

(** ["c" * n] *)
Fixpoint make_string (n : nat) (c : ascii) : string :=
  match n with O => EmptyString | S n' => String c (make_string n' c) end.

Definition q (s : string) : string := String dq (s ++ str1 dq).

Definition count_candidates (lines : list string) : nat :=
  List.length (filter is_task_candidate lines).

Definition no_colon (s : string) : bool := all_chars (fun c => negb (Ascii.eqb c colon)) s.

(** [s] is empty or does not start with a date character. *)
Definition starts_non_date (s : string) : bool :=
  match s with EmptyString => true | String c _ => negb (is_date_char c) end.

Ltac ascii_cases c :=
  destruct c as [b0 b1 b2 b3 b4 b5 b6 b7];
  destruct b0, b1, b2, b3, b4, b5, b6, b7.

Definition starts_non (p : ascii -> bool) (s : string) : bool :=
  match s with EmptyString => true | String c _ => negb (p c) end.

(** The module-level state the helpers could observe: the [PROMPTS]
    dictionary ([API_URL] and [MODEL_NAME] are immutable strings). *)
Record module_state := { prompts : list (string * string) }.

Definition initial_state : module_state := {| prompts := PROMPTS |}.

Inductive call :=
| CallExtract (text : string)
| CallSanitize (code diagram_type : string).

(** One call of a helper: neither reads nor writes module-level names; the
    Gantt counter is a local of [sanitize_mermaid_code]. *)
Definition run_call (st : module_state) (c : call) : module_state * result string :=
  (st, match c with
       | CallExtract text => extract_mermaid_code text
       | CallSanitize code dt => ret (sanitize_mermaid_code code dt)
       end).

Fixpoint run_calls (st : module_state) (cs : list call) : module_state * list (result string) :=
  match cs with
  | [] => (st, [])
  | c :: cs' =>
      let '(st1, r) := run_call st c in
      let '(st2, rs) := run_calls st1 cs' in
      (st2, r :: rs)
  end.

Definition call_alone (c : call) : result string := snd (run_call initial_state c).

(** The credential a request is sent with. *)
Definition req_key (r : request) : string :=
  match r with ScoreReq k _ | RefineReq k _ | GenReq k _ => k end.

Definition is_gen (r : request) : bool :=
  match r with GenReq _ _ => true | _ => false end.

(** The condition of the [break] in the trailing-prose loop. *)
Definition is_prose_line (line : string) : bool :=
  startswith_any (lower (strip line)) prose_markers.

Definition no_nl (s : string) : bool := all_chars (fun c => negb (Ascii.eqb c nl)) s.

Definition no_lbrace (s : string) : bool := all_chars (fun c => negb (Ascii.eqb c lbrace)) s.

(** The blocks that [```(?:mermaid)?\n(.*?)```] (with [re.DOTALL]) matches
    at the start of [s], described directly: three backticks, an optional
    [mermaid] tag, a newline, the body, and the closing three backticks,
    which are the first three consecutive backticks after the newline (no
    run of three starts inside the body, nor in its last two characters). *)
Definition block_at (s body : string) : Prop :=
  exists tag post,
    (tag = EmptyString \/ tag = "mermaid")
    /\ s = fence ++ tag ++ nl_s ++ body ++ fence ++ post
    /\ contains fence (body ++ (String backtick (str1 backtick))) = false.

(* ================================================================== *)
(** * Proofs *)

Example extract_ex1 :
  extract_mermaid_code (fence ++ "mermaid" ++ nl_s ++ "flowchart TD" ++ nl_s ++
                        " A --> B" ++ nl_s ++ fence)
  = inr ("flowchart TD" ++ nl_s ++ " A --> B").
Proof. vm_compute. reflexivity. Qed.

Example extract_ex2 :
  extract_mermaid_code ("Sure! Here's your diagram:" ++ nl_s ++ "flowchart TD" ++ nl_s ++ " A --> B")
  = inr ("flowchart TD" ++ nl_s ++ " A --> B").
Proof. vm_compute. reflexivity. Qed.

Example extract_ex3 :
  extract_mermaid_code "Decision" = inl (ValueError (NoMermaid "Decision")).
Proof. vm_compute. reflexivity. Qed.

Example sanitize_ex_flow :
  sanitize_mermaid_code "A{Is valid?}" "Flowchart" = "A{{Is valid}}".
Proof. vm_compute. reflexivity. Qed.

Example sanitize_ex_gantt :
  sanitize_mermaid_code ("Task A :2025-10-01, 5d" ++ nl_s ++ "Task B :after task1, 3d") "Gantt"
  = "Task A :task1, 2025-10-01, 5d" ++ nl_s ++ "Task B :task2, after task1, 3d".
Proof. vm_compute. reflexivity. Qed.

Example sanitize_ex_prose :
  sanitize_mermaid_code ("pie" ++ nl_s ++ "Note: this is a pie") "Pie Chart" = "pie".
Proof. vm_compute. reflexivity. Qed.

Example format_ex : py_format "a {{x}} {description}!" "D" = inr "a {x} D!".
Proof. vm_compute. reflexivity. Qed.

(** The end-to-end scenario of the specification. *)
Example generate_pie_ex :
  snd (generate_mermaid_code
         (stub_server (ok_reply "8") NetworkError
            (ok_reply (fence ++ "mermaid" ++ nl_s ++ "pie showData" ++ nl_s ++
                       " " ++ str1 dq ++ "Apples" ++ str1 dq ++ " : 40" ++ nl_s ++
                       " " ++ str1 dq ++ "Oranges" ++ str1 dq ++ " : 60" ++ nl_s ++ fence)))
         "k1" "Pie Chart" "Fruit preferences: 40 apples, 60 oranges")
  = inr ("pie showData" ++ nl_s ++ " " ++ str1 dq ++ "Apples" ++ str1 dq ++ " : 40" ++ nl_s ++
         " " ++ str1 dq ++ "Oranges" ++ str1 dq ++ " : 60").
Proof. vm_compute. reflexivity. Qed.

(** ** String lemmas *)

Lemma prefix_app : forall p x, String.prefix p (p ++ x) = true.
Proof.
  induction p as [|c p IH]; intros x; [destruct x; reflexivity|].
  simpl. destruct (ascii_dec c c) as [_|n]; [apply IH|congruence].
Qed.

Lemma startswith_app : forall p x, startswith (p ++ x) p = true.
Proof. intros; apply prefix_app. Qed.

Lemma drop_app : forall a b, drop (String.length a) (a ++ b) = b.
Proof. induction a as [|c a IH]; intros b; simpl; [reflexivity|apply IH]. Qed.

Lemma startswith_fence_other : forall c r,
  Ascii.eqb c backtick = false -> startswith (String c r) fence = false.
Proof.
  intros c r H. unfold startswith, fence. cbn [String.prefix].
  destruct (ascii_dec backtick c) as [e|_]; [|reflexivity].
  subst. rewrite Ascii.eqb_refl in H. discriminate.
Qed.

Lemma append_assoc_str : forall a b c : string, (a ++ b) ++ c = a ++ b ++ c.
Proof. induction a as [|x a IH]; intros; simpl; [reflexivity|now rewrite IH]. Qed.

Lemma drop_fence : forall x, drop 3 (fence ++ x) = x.
Proof. intros x. exact (drop_app fence x). Qed.

Lemma drop_nl : forall x, drop 1 (nl_s ++ x) = x.
Proof. intros x. exact (drop_app nl_s x). Qed.

Lemma drop_mermaid_nl : forall x, drop 8 ("mermaid" ++ nl_s ++ x) = x.
Proof. intros x. rewrite <- append_assoc_str. exact (drop_app ("mermaid" ++ nl_s) x). Qed.

Lemma search_fence_none : forall s, contains fence s = false -> search_fence s = None.
Proof.
  induction s as [|c r IH]; intros H; [reflexivity|].
  cbn [contains] in H. apply orb_false_iff in H as [H1 H2].
  cbn [search_fence]. unfold fence_at. rewrite H1. apply IH, H2.
Qed.

Lemma first_keyword_line_app : forall ls1 l ls2,
  forallb (fun x => negb (startswith_any (strip x) valid_starts)) ls1 = true ->
  startswith_any (strip l) valid_starts = true ->
  first_keyword_line (ls1 ++ l :: ls2) = Some (l :: ls2).
Proof.
  induction ls1 as [|x ls1 IH]; intros l ls2 H1 H2; cbn [app first_keyword_line].
  - rewrite H2. reflexivity.
  - cbn [forallb] in H1. apply andb_prop in H1 as [Hx H1]. apply negb_true_iff in Hx.
    rewrite Hx. apply IH; assumption.
Qed.

(** ** C2: the order of the extraction rules *)

(** C2 (counterexample). A fenced block tagged with a language hint other
    than [mermaid] is not recognised as a fence: the keyword rule applies
    and the closing fence stays in the result. *)
Lemma extract_other_tag_counterexample :
  extract_mermaid_code (fence ++ "js" ++ nl_s ++ "flowchart TD" ++ nl_s ++ fence)
    = inr ("flowchart TD" ++ nl_s ++ fence)
  /\ extract_mermaid_code (fence ++ "js" ++ nl_s ++ "flowchart TD" ++ nl_s ++ fence)
    <> inr "flowchart TD".
Proof. split; vm_compute; [reflexivity | discriminate]. Qed.

(** ** The prompt templates under [str.format] *)

Lemma format_class_diagram : forall d, py_format prompt_class_diagram d = inl KeyError.
Proof. intros d. vm_compute. reflexivity. Qed.

Lemma format_pie_chart : forall d, exists p, py_format prompt_pie_chart d = inr p.
Proof. intros d. vm_compute. eexists. reflexivity. Qed.

Lemma lookup_class_diagram : lookup "Class Diagram" PROMPTS = Some prompt_class_diagram.
Proof. reflexivity. Qed.

Lemma lookup_pie_chart : lookup "Pie Chart" PROMPTS = Some prompt_pie_chart.
Proof. reflexivity. Qed.

(** ** C1: configuration errors *)

(** C1 (counterexample). An unsupported diagram type is rejected only after
    the scoring call (and here the refinement call) has been sent. *)
Lemma unsupported_type_counterexample :
  generate_mermaid_code (const_server NetworkError) "k1" "Venn" "x"
  = ([ScoreReq "k1" "x"; RefineReq "k1" "x"], inl (ValueError (UnsupportedType "Venn"))).
Proof. vm_compute. reflexivity. Qed.

(** C1 (amended). An empty credential fails with a [ValueError] before any
    request is sent, whatever the diagram type. An unsupported diagram type
    (with a non-empty credential) fails with a [ValueError] after the scoring
    request and, when the score is below 6, the refinement request, but
    before the generation request. *)
Theorem config_errors_rejected :
  forall server api_key diagram_type description,
    (api_key = EmptyString ->
     generate_mermaid_code server api_key diagram_type description
     = ([], inl (ValueError NoApiKey)))
    /\
    (api_key <> EmptyString -> lookup diagram_type PROMPTS = None ->
     generate_mermaid_code server api_key diagram_type description
     = (pre_lookup_calls server api_key (strip description),
        inl (ValueError (UnsupportedType diagram_type)))).
Proof.
  intros server api_key diagram_type description. split.
  - intros ->. reflexivity.
  - intros Hk Hl. unfold generate_mermaid_code, pre_lookup_calls.
    destruct (String.eqb_spec api_key EmptyString) as [e|_]; [contradiction|].
    rewrite Hl.
    destruct (score_prompt server api_key (strip description) <? 6)%Z; reflexivity.
Qed.

Lemma config_errors_rejected_witness :
  generate_mermaid_code (const_server NetworkError) EmptyString "Flowchart" "x"
    = ([], inl (ValueError NoApiKey))
  /\ generate_mermaid_code (const_server (ok_reply "9")) "k1" "Venn" " x "
    = ([ScoreReq "k1" "x"], inl (ValueError (UnsupportedType "Venn"))).
Proof.
  split.
  - apply (proj1 (config_errors_rejected _ _ _ _)). reflexivity.
  - rewrite (proj2 (config_errors_rejected _ _ _ _)).
    + vm_compute. reflexivity.
    + discriminate.
    + reflexivity.
Defined.

(** ** C8: building the final prompt *)

(** C8 (code bug). The [Class Diagram] template writes the braces of its
    example class body as single braces, unlike the [ER Diagram] template,
    which doubles them: [str.format] reads [{ ... }] as a replacement field
    named by the class body and raises [KeyError], for every description.
    With a non-empty credential, [generate_mermaid_code] therefore raises
    [KeyError] for this type without sending the generation request. *)
Theorem class_diagram_prompt_raises :
  forall server api_key description,
    lookup "Class Diagram" PROMPTS = Some prompt_class_diagram
    /\ (forall d, py_format prompt_class_diagram d = inl KeyError)
    /\ generate_mermaid_code server api_key "Class Diagram" description
       = if String.eqb api_key EmptyString
         then ([], inl (ValueError NoApiKey))
         else (pre_lookup_calls server api_key (strip description), inl KeyError).
Proof.
  intros server api_key description.
  split; [exact lookup_class_diagram|]. split; [exact format_class_diagram|].
  unfold generate_mermaid_code, pre_lookup_calls.
  destruct (String.eqb api_key EmptyString); [reflexivity|].
  rewrite lookup_class_diagram.
  destruct (score_prompt server api_key (strip description) <? 6)%Z;
    unfold prompt_class_diagram at 1; cbv beta iota;
    rewrite format_class_diagram; reflexivity.
Qed.

(** ** C3: [score_prompt] *)

Lemma search_digits_none : forall s,
  all_chars non_digit s = true -> search_digits s = None.
Proof.
  induction s as [|c r IH]; intros H; [reflexivity|].
  cbn [all_chars] in H. apply andb_prop in H as [Hc Hr].
  unfold non_digit in Hc. apply negb_true_iff in Hc.
  cbn [search_digits]. rewrite Hc. apply IH, Hr.
Qed.

Lemma take_while_app : forall p a b,
  all_chars p a = true ->
  match b with EmptyString => true | String c _ => negb (p c) end = true ->
  take_while p (a ++ b) = a.
Proof.
  induction a as [|c a IH]; intros b Ha Hb.
  - destruct b as [|c r]; [reflexivity|].
    apply negb_true_iff in Hb. simpl. rewrite Hb. reflexivity.
  - cbn [all_chars] in Ha. apply andb_prop in Ha as [Hc Ha].
    simpl. rewrite Hc, IH by assumption. reflexivity.
Qed.

Lemma search_digits_app : forall pre ds post,
  all_chars non_digit pre = true -> ds <> EmptyString ->
  all_chars is_digit ds = true -> starts_non_digit post = true ->
  search_digits (pre ++ ds ++ post) = Some ds.
Proof.
  induction pre as [|c pre IH]; intros ds post Hp Hne Hd Hpost.
  - destruct ds as [|d ds']; [contradiction|].
    cbn [String.append search_digits].
    pose proof Hd as Hd'. cbn [all_chars] in Hd'. apply andb_prop in Hd' as [Hd0 _].
    rewrite Hd0. f_equal. apply (take_while_app is_digit (String d ds') post); [exact Hd|].
    destruct post; [reflexivity|exact Hpost].
  - cbn [all_chars] in Hp. apply andb_prop in Hp as [Hc Hp].
    unfold non_digit in Hc. apply negb_true_iff in Hc.
    cbn [String.append search_digits]. rewrite Hc. apply IH; assumption.
Qed.

(** C3 (counterexample). A reply whose first run of digits is longer than
    4300 digits: [int] raises, the [except] clause catches it and the score
    is 3, although the run is far above 10 (clamping would give 10). *)
Lemma score_long_run_counterexample :
  let txt := make_string 4301 "9"%char in
  search_digits txt = Some txt
  /\ (10 < int_acc 0 txt)%Z
  /\ score_prompt (const_server (ok_reply txt)) "k1" "water cycle" = 3%Z.
Proof. vm_compute. split; [reflexivity | split; [reflexivity | reflexivity]]. Qed.

(** C3 (amended). [score_prompt] returns an integer in [0, 10] for every
    reply: 3 when the call fails in any way (transport error, non-2xx
    status, body that is not JSON, missing or mistyped
    [choices]/[message]/[content]); 3 when the reply text has no digit;
    when the first run of digits has at most 4300 digits, its value clamped
    to [0, 10]; when it is longer, 3 ([int] raises and the error is
    caught). *)
Theorem score_prompt_spec : forall server api_key user_input,
  let s := score_prompt server api_key user_input in
  let rep := server (ScoreReq api_key user_input) in
  (0 <= s <= 10)%Z
  /\ (forall e, choice_content rep = inl e -> s = 3%Z)
  /\ (forall txt, choice_content rep = inr txt ->
        all_chars non_digit txt = true -> s = 3%Z)
  /\ (forall txt pre ds post, choice_content rep = inr txt ->
        txt = pre ++ ds ++ post ->
        all_chars non_digit pre = true -> ds <> EmptyString ->
        all_chars is_digit ds = true -> starts_non_digit post = true ->
        String.length ds <= max_str_digits ->
        s = Z.max 0 (Z.min 10 (int_acc 0 ds)))
  /\ (forall txt pre ds post, choice_content rep = inr txt ->
        txt = pre ++ ds ++ post ->
        all_chars non_digit pre = true -> ds <> EmptyString ->
        all_chars is_digit ds = true -> starts_non_digit post = true ->
        max_str_digits < String.length ds ->
        s = 3%Z).
Proof.
  intros server api_key user_input s rep. subst s rep. unfold score_prompt.
  split; [|split; [|split; [|split]]].
  - destruct (choice_content _) as [e|txt]; [lia|].
    destruct (search_digits txt) as [m|]; [|lia].
    destruct (py_int m); lia.
  - intros e ->. reflexivity.
  - intros txt -> H. rewrite search_digits_none by exact H. reflexivity.
  - intros txt pre ds post -> -> Hp Hne Hd Hpost Hlen.
    rewrite search_digits_app by assumption. unfold py_int.
    replace (Nat.ltb max_str_digits (String.length ds)) with false
      by (symmetry; apply Nat.ltb_ge; exact Hlen).
    reflexivity.
  - intros txt pre ds post -> -> Hp Hne Hd Hpost Hlen.
    rewrite search_digits_app by assumption. unfold py_int.
    replace (Nat.ltb max_str_digits (String.length ds)) with true
      by (symmetry; apply Nat.ltb_lt; exact Hlen).
    reflexivity.
Qed.

Lemma score_prompt_spec_witness :
  score_prompt (const_server (ok_reply " Score: 12/10")) "k1" "water cycle" = 10%Z
  /\ score_prompt (const_server NetworkError) "k1" "water cycle" = 3%Z
  /\ score_prompt (const_server (ok_reply "high")) "k1" "water cycle" = 3%Z
  /\ score_prompt (const_server (ok_reply ("Score " ++ make_string 4301 "7"%char)))
       "k1" "water cycle" = 3%Z.
Proof.
  split; [|split; [|split]].
  - apply (proj1 (proj2 (proj2 (proj2 (score_prompt_spec _ _ _))))
             "Score: 12/10" "Score: " "12" "/10");
      [reflexivity | reflexivity | reflexivity | discriminate | reflexivity
      | reflexivity | vm_compute; lia].
  - apply (proj1 (proj2 (score_prompt_spec _ _ _)) TransportError). reflexivity.
  - apply (proj1 (proj2 (proj2 (score_prompt_spec _ _ _))) "high");
      reflexivity.
  - apply (proj2 (proj2 (proj2 (proj2 (score_prompt_spec _ _ _))))
             ("Score " ++ make_string 4301 "7"%char) "Score "
             (make_string 4301 "7"%char) EmptyString);
      [vm_compute; reflexivity | vm_compute; reflexivity | reflexivity | discriminate
      | vm_compute; reflexivity | reflexivity | vm_compute; lia].
Defined.

(** ** C4: [refine_prompt] *)

Lemma exists_char_app : forall p a b,
  exists_char p (a ++ b) = exists_char p a || exists_char p b.
Proof.
  induction a as [|c a IH]; intros b; [reflexivity|].
  simpl. rewrite IH, orb_assoc. reflexivity.
Qed.

Lemma exists_char_rev : forall p s, exists_char p (rev_str s) = exists_char p s.
Proof.
  induction s as [|c r IH]; [reflexivity|].
  cbn [rev_str exists_char]. rewrite exists_char_app, IH. simpl.
  rewrite orb_false_r, orb_comm. reflexivity.
Qed.

Lemma exists_char_lstrip : forall p s,
  exists_char (fun c => negb (p c)) s = true ->
  exists_char (fun c => negb (p c)) (lstrip_by p s) = true.
Proof.
  induction s as [|c r IH]; intros H; [exact H|].
  cbn [lstrip_by]. destruct (p c) eqn:E; [|exact H].
  apply IH. cbn [exists_char] in H. rewrite E in H. exact H.
Qed.

Lemma strip_quotes_nonempty : forall s,
  exists_char (fun c => negb (is_quote_or_space c)) s = true ->
  strip_quotes s <> EmptyString.
Proof.
  intros s H E. unfold strip_quotes, rstrip_by in E.
  apply exists_char_lstrip in H.
  rewrite <- exists_char_rev in H.
  apply exists_char_lstrip in H.
  rewrite <- exists_char_rev in H.
  rewrite E in H. discriminate.
Qed.

Lemma lstrip_all : forall p s, all_chars p s = true -> lstrip_by p s = EmptyString.
Proof.
  induction s as [|c r IH]; intros H; [reflexivity|].
  cbn [all_chars] in H. apply andb_prop in H as [Hc Hr].
  cbn [lstrip_by]. rewrite Hc. apply IH, Hr.
Qed.

(** C4. A failed refinement call gives back the description unchanged, but
    a successful call whose content is empty, or only white space and
    double quotes, makes [refine_prompt] return the empty string, not the
    description. *)
Theorem refine_empty_content_bug : forall server api_key user_input,
  let rep := server (RefineReq api_key user_input) in
  (forall e, choice_content rep = inl e ->
     refine_prompt server api_key user_input = user_input)
  /\ (forall txt, choice_content rep = inr txt ->
        all_chars is_quote_or_space txt = true ->
        refine_prompt server api_key user_input = EmptyString).
Proof.
  intros server api_key user_input rep. subst rep. unfold refine_prompt. split.
  - intros e ->. reflexivity.
  - intros txt -> H. unfold strip_quotes. rewrite lstrip_all by exact H. reflexivity.
Qed.

Lemma refine_empty_content_bug_witness :
  refine_prompt (const_server (ok_reply EmptyString)) "k1" "water cycle" = EmptyString
  /\ refine_prompt (const_server (ok_reply (q EmptyString))) "k1" "water cycle" = EmptyString
  /\ refine_prompt (const_server NetworkError) "k1" "water cycle" = "water cycle".
Proof.
  split; [|split].
  - apply (proj2 (refine_empty_content_bug _ _ _) EmptyString); reflexivity.
  - apply (proj2 (refine_empty_content_bug _ _ _) (q EmptyString)); vm_compute; reflexivity.
  - apply (proj1 (refine_empty_content_bug _ _ _) TransportError). reflexivity.
Defined.

(** ** C5: flowchart labels *)

(** C5 (code bug). The single-brace rewrite works, but each of the two
    cleanup substitutions is one [re.sub] pass whose pattern matches a whole
    [{{...}}] label: it removes only the last [?]/[!] of a label and only the
    last pair of double quotes, so [A{Really?!}] keeps its [?] and
    [A{"Yes" or "No"}] keeps the quotes around [Yes]. *)
Theorem flowchart_label_cleanup :
  sanitize_mermaid_code "A{Is valid?}" "Flowchart" = "A{{Is valid}}"
  /\ sanitize_mermaid_code "A{Really?!}" "Flowchart" = "A{{Really?}}"
  /\ sanitize_mermaid_code ("A{" ++ q "Yes" ++ " or " ++ q "No" ++ "}") "Flowchart"
     = "A{{" ++ q "Yes" ++ " or No}}".
Proof. split; [|split]; vm_compute; reflexivity. Qed.

(** ** C6: Gantt task identifiers *)

Lemma date_char_not_space : forall c, is_date_char c = true -> is_space c = false.
Proof. intros c; ascii_cases c; vm_compute; congruence. Qed.

Lemma date_char_not_colon : forall c, is_date_char c = true -> Ascii.eqb c colon = false.
Proof. intros c; ascii_cases c; vm_compute; congruence. Qed.

Lemma startswith_head : forall c r d p,
  startswith (String c r) (String d p) = true -> c = d.
Proof.
  intros c r d p H. unfold startswith in H. cbn [String.prefix] in H.
  destruct (ascii_dec d c); [congruence|discriminate].
Qed.

Lemma ref_alt_date : forall c r, is_date_char c = true -> ref_alt (String c r) = None.
Proof.
  intros c r Hc. unfold ref_alt. cbn [find].
  destruct (startswith (String c r) "after") eqn:E1.
  { apply startswith_head in E1. subst. discriminate. }
  destruct (startswith (String c r) "des") eqn:E2.
  { apply startswith_head in E2. subst. discriminate. }
  destruct (startswith (String c r) "active") eqn:E3.
  { apply startswith_head in E3. subst. discriminate. }
  reflexivity.
Qed.

Lemma length_append_str : forall a b, String.length (a ++ b) = String.length a + String.length b.
Proof. induction a as [|c a IH]; intros b; simpl; [reflexivity|now rewrite IH]. Qed.

Lemma gantt_sub_go_skip : forall n a b,
  gantt_sub_go n (String.length a) (a ++ b) = gantt_sub_go n 0 b.
Proof. induction a as [|c a IH]; intros b; [reflexivity|apply IH]. Qed.

Lemma gantt_sub_go_no_colon : forall n a b,
  no_colon a = true -> gantt_sub_go n 0 (a ++ b) = a ++ gantt_sub_go n 0 b.
Proof.
  induction a as [|c a IH]; intros b H; [reflexivity|].
  unfold no_colon in H. cbn [all_chars] in H. apply andb_prop in H as [Hc Ha].
  apply negb_true_iff in Hc.
  cbn [String.append gantt_sub_go]. rewrite Hc, IH by exact Ha. reflexivity.
Qed.

Lemma gantt_match_date : forall ws date rest,
  all_chars is_space ws = true -> date <> EmptyString ->
  all_chars is_date_char date = true -> starts_non_date rest = true ->
  gantt_match (ws ++ date ++ rest) = Some (String.length ws, date).
Proof.
  intros ws date rest Hws Hne Hd Hr.
  destruct date as [|d date']; [contradiction|].
  pose proof Hd as Hd0. cbn [all_chars] in Hd0. apply andb_prop in Hd0 as [Hd0 _].
  unfold gantt_match.
  rewrite (take_while_app is_space ws (String d date' ++ rest)) by
    (exact Hws || (cbn; rewrite date_char_not_space by exact Hd0; reflexivity)).
  rewrite drop_app.
  replace (ref_alt (String d date' ++ rest)) with (@None string)
    by (symmetry; apply ref_alt_date; exact Hd0).
  rewrite (take_while_app is_date_char (String d date') rest) by
    (exact Hd || (destruct rest; [reflexivity|exact Hr])).
  reflexivity.
Qed.

Lemma gantt_loop_nth : forall lines n i line,
  nth_error lines i = Some line ->
  nth_error (gantt_loop lines n) i
  = Some (if is_task_candidate line
          then gantt_sub (n + count_candidates (firstn i lines)) line else line).
Proof.
  induction lines as [|l ls IH]; intros n i line H.
  - destruct i; discriminate.
  - destruct i as [|i]; cbn in H.
    + injection H as <-. cbn [gantt_loop firstn]. unfold count_candidates. cbn.
      rewrite Nat.add_0_r. destruct (is_task_candidate l); reflexivity.
    + cbn [gantt_loop firstn]. unfold count_candidates. cbn [filter].
      destruct (is_task_candidate l) eqn:E; cbn [nth_error List.length];
        rewrite (IH _ _ _ H); unfold count_candidates.
      * rewrite Nat.add_succ_comm. reflexivity.
      * reflexivity.
Qed.

Lemma gantt_loop_length : forall lines n, List.length (gantt_loop lines n) = List.length lines.
Proof.
  induction lines as [|l ls IH]; intros n; [reflexivity|].
  cbn [gantt_loop]. destruct (is_task_candidate l); cbn; now rewrite IH.
Qed.

Lemma append_nil_str : forall s, s ++ EmptyString = s.
Proof. induction s as [|c s IH]; simpl; [reflexivity|now rewrite IH]. Qed.

Lemma gantt_sub_date_line : forall n name ws date rest,
  no_colon name = true -> all_chars is_space ws = true -> date <> EmptyString ->
  all_chars is_date_char date = true -> starts_non_date rest = true ->
  no_colon rest = true ->
  gantt_sub n (name ++ ":" ++ ws ++ date ++ rest)
  = name ++ ":task" ++ nat_to_string n ++ ", " ++ date ++ rest.
Proof.
  intros n name ws date rest Hn Hws Hne Hd Hr Hrc. unfold gantt_sub.
  rewrite gantt_sub_go_no_colon by exact Hn. f_equal.
  change (":" ++ ws ++ date ++ rest) with (String colon (ws ++ date ++ rest)).
  cbn [gantt_sub_go]. rewrite Ascii.eqb_refl.
  rewrite gantt_match_date by assumption. cbv beta iota.
  rewrite <- (append_assoc_str ws date rest), <- length_append_str, gantt_sub_go_skip.
  rewrite <- (append_nil_str rest) at 1.
  rewrite gantt_sub_go_no_colon by exact Hrc.
  change (gantt_sub_go n 0 EmptyString) with EmptyString.
  rewrite append_nil_str. reflexivity.
Qed.

(** C6 (counterexample). A line that is not a section header but contains
    the word [section] (here inside [Dissection]) gets no identifier; and a
    candidate line with no date or reference token after its colon (here a
    title) gets none either but uses up [task1], so the first task line
    gets [task2]. *)
(** C6. The candidate test looks for the substring [section] anywhere in
    the lower-cased line, not for a section header: every line containing
    it, such as a task named [Dissection lab], is left unchanged and does
    not use up a number. The substitution has no [count=1]: a candidate
    with several [:]-plus-date tokens gets the same identifier after each
    colon. *)
Theorem gantt_section_substring_bug :
  (forall line ls n, contains "section" (lower line) = true ->
     gantt_loop (line :: ls) n = line :: gantt_loop ls n)
  /\ sanitize_mermaid_code "Dissection lab :2025-10-01, 5d" "Gantt"
     = "Dissection lab :2025-10-01, 5d"
  /\ sanitize_mermaid_code "Task A :2025-10-01, 10:30" "Gantt"
     = "Task A :task1, 2025-10-01, 10:task1, 30".
Proof.
  split; [|split].
  - intros line ls n H. cbn [gantt_loop]. unfold is_task_candidate. rewrite H.
    rewrite andb_false_r. reflexivity.
  - vm_compute. reflexivity.
  - vm_compute. reflexivity.
Qed.

Lemma gantt_section_substring_bug_witness :
  gantt_loop ["Intersection survey :2025-10-01, 3d"; "Task B :2025-10-04, 2d"] 1
  = ["Intersection survey :2025-10-01, 3d"; "Task B :task1, 2025-10-04, 2d"].
Proof.
  rewrite (proj1 gantt_section_substring_bug); [|vm_compute; reflexivity].
  vm_compute. reflexivity.
Defined.

(** ** [strip] is idempotent *)

Lemma lstrip_starts_non : forall p s, starts_non p (lstrip_by p s) = true.
Proof.
  induction s as [|c r IH]; [reflexivity|].
  cbn [lstrip_by]. destruct (p c) eqn:E; [exact IH|]. simpl. rewrite E. reflexivity.
Qed.

Lemma lstrip_fixed : forall p s, starts_non p s = true -> lstrip_by p s = s.
Proof.
  intros p [|c r] H; [reflexivity|]. simpl in H. apply negb_true_iff in H.
  simpl. rewrite H. reflexivity.
Qed.

Lemma rev_str_app : forall a b, rev_str (a ++ b) = rev_str b ++ rev_str a.
Proof.
  induction a as [|c a IH]; intros b; simpl.
  - now rewrite append_nil_str.
  - rewrite IH. apply append_assoc_str.
Qed.

Lemma rev_str_involutive : forall s, rev_str (rev_str s) = s.
Proof.
  induction s as [|c r IH]; [reflexivity|].
  simpl. rewrite rev_str_app, IH. reflexivity.
Qed.

Lemma lstrip_snoc : forall p a c, p c = false ->
  exists w, lstrip_by p (a ++ str1 c) = w ++ str1 c.
Proof.
  induction a as [|x a IH]; intros c Hc.
  - exists EmptyString. simpl. rewrite Hc. reflexivity.
  - cbn [String.append lstrip_by]. destruct (p x).
    + apply IH, Hc.
    + exists (String x a). reflexivity.
Qed.

Lemma rstrip_starts_non : forall p s,
  starts_non p s = true -> starts_non p (rstrip_by p s) = true.
Proof.
  intros p [|c r] H; [reflexivity|]. simpl in H. apply negb_true_iff in H.
  unfold rstrip_by. cbn [rev_str].
  destruct (lstrip_snoc p (rev_str r) c H) as [w ->].
  rewrite rev_str_app. simpl. rewrite H. reflexivity.
Qed.

Lemma strip_idempotent : forall s, strip (strip s) = strip s.
Proof.
  intros s. unfold strip.
  set (z := lstrip_by is_space s).
  assert (Hz : starts_non is_space z = true) by apply lstrip_starts_non.
  set (y := rstrip_by is_space z).
  assert (Hy : starts_non is_space y = true) by (apply rstrip_starts_non, Hz).
  rewrite (lstrip_fixed _ _ Hy).
  unfold y at 1, rstrip_by at 1. unfold y, rstrip_by.
  rewrite rev_str_involutive.
  rewrite (lstrip_fixed is_space (lstrip_by is_space (rev_str z)))
    by apply lstrip_starts_non.
  reflexivity.
Qed.

Lemma take_length : forall n s, String.length (take n s) <= n.
Proof.
  unfold take. induction n as [|n IH]; intros [|c r]; simpl; try lia.
  specialize (IH r). lia.
Qed.

Lemma first_keyword_line_none : forall ls,
  forallb (fun x => negb (startswith_any (strip x) valid_starts)) ls = true ->
  first_keyword_line ls = None.
Proof.
  induction ls as [|l ls IH]; intros H; [reflexivity|].
  cbn [forallb] in H. apply andb_prop in H as [Hl H]. apply negb_true_iff in Hl.
  cbn [first_keyword_line]. rewrite Hl. apply IH, H.
Qed.

(** The outcome of [generate_mermaid_code] is the outcome of the generation
    call as soon as the credential is non-empty and the template formats. *)
Lemma generate_reaches_generation : forall rs rr rg api_key dt description t,
  api_key <> EmptyString -> lookup dt PROMPTS = Some t -> t <> EmptyString ->
  (forall d, exists p, py_format t d = inr p) ->
  snd (generate_mermaid_code (stub_server rs rr rg) api_key dt description)
  = generation_call dt rg.
Proof.
  intros rs rr rg api_key dt description t Hk Hl Ht Hf.
  unfold generate_mermaid_code.
  destruct (String.eqb_spec api_key EmptyString) as [e|_]; [contradiction|].
  rewrite Hl. destruct t as [|a t']; [contradiction|].
  destruct (score_prompt _ _ _ <? 6)%Z; cbv beta iota;
    match goal with |- context [py_format ?tt ?dd] =>
      destruct (Hf dd) as [p Hp]; rewrite Hp end; reflexivity.
Qed.

Lemma generation_try_ok_reply : forall dt txt,
  generation_try dt (ok_reply txt) =
  if String.eqb (strip txt) EmptyString then raise (ValueError EmptyResponse) else
  bind (extract_mermaid_code (strip txt)) (fun m => ret (sanitize_mermaid_code m dt)).
Proof. reflexivity. Qed.

(** C7: the extraction error and the communication errors reach the caller
    as exceptions of one class, [ConnectionError]; the reply without choices
    is wrapped like the extraction error, not like the network failure. *)
Lemma generation_error_same_class_counterexample :
  let run rg := snd (generate_mermaid_code (stub_server (ok_reply "9") NetworkError rg)
                       "k1" "Pie Chart" "Fruit") in
  run (ok_reply "Decision") = inl (ConnectionError (InvalidMermaid (ValueError (NoMermaid "Decision"))))
  /\ run (Response 200 (Some (JObj []))) = inl (ConnectionError (InvalidMermaid (ValueError NoChoices)))
  /\ run NetworkError = inl (ConnectionError (ApiFailed TransportError))
  /\ class_of (ConnectionError (InvalidMermaid (ValueError (NoMermaid "Decision"))))
     = class_of (ConnectionError (ApiFailed TransportError)).
Proof. vm_compute. repeat split; reflexivity. Qed.

(** ** C9: the refinement decision *)

Lemma generate_calls_shape : forall server api_key dt description,
  api_key <> EmptyString ->
  fst (generate_mermaid_code server api_key dt description)
    = pre_lookup_calls server api_key (strip description)
  \/ exists p, fst (generate_mermaid_code server api_key dt description)
         = (pre_lookup_calls server api_key (strip description) ++ [GenReq api_key p])%list.
Proof.
  intros server api_key dt description Hk.
  unfold generate_mermaid_code, pre_lookup_calls.
  destruct (String.eqb_spec api_key EmptyString) as [e|_]; [contradiction|].
  cbv zeta.
  destruct (score_prompt server api_key (strip description) <? 6)%Z; cbv beta iota;
    (destruct (lookup dt PROMPTS) as [[|a s]|]; [left; reflexivity|
      | left; reflexivity]);
    (destruct (py_format _ _) as [e|p]; [left; reflexivity | right; exists p; reflexivity]).
Qed.

Lemma refine_in_pre_lookup : forall server api_key user_input,
  In (RefineReq api_key user_input) (pre_lookup_calls server api_key user_input)
  <-> (score_prompt server api_key user_input < 6)%Z.
Proof.
  intros server api_key user_input. unfold pre_lookup_calls.
  destruct (Z.ltb_spec (score_prompt server api_key user_input) 6) as [H|H];
    simpl; split; intros Hin; try lia; auto;
    destruct Hin as [Hin|Hin]; try discriminate; try contradiction.
Qed.

(** C9. With a non-empty credential, the refinement request is sent if and
    only if the score of the stripped description is below 6. When the
    score is 6 or more, the final prompt is built from that stripped
    description itself; below 6, from the refined text. *)
Theorem refine_iff_low_score : forall server api_key dt description,
  api_key <> EmptyString ->
  let user_input := strip description in
  let score := score_prompt server api_key user_input in
  let calls := fst (generate_mermaid_code server api_key dt description) in
  (In (RefineReq api_key user_input) calls <-> (score < 6)%Z)
  /\ ((6 <= score)%Z -> forall t p, lookup dt PROMPTS = Some t -> t <> EmptyString ->
        py_format t user_input = inr p ->
        calls = [ScoreReq api_key user_input; GenReq api_key p])
  /\ ((score < 6)%Z -> forall t p, lookup dt PROMPTS = Some t -> t <> EmptyString ->
        py_format t (refine_prompt server api_key user_input) = inr p ->
        calls = [ScoreReq api_key user_input; RefineReq api_key user_input; GenReq api_key p]).
Proof.
  intros server api_key dt description Hk user_input score calls.
  split; [|split].
  - unfold score. rewrite <- refine_in_pre_lookup. unfold calls, user_input.
    destruct (generate_calls_shape server api_key dt description Hk) as [-> | [p ->]];
      [reflexivity|].
    rewrite in_app_iff. split; [|left; assumption].
    intros [H|[H|[]]]; [assumption | discriminate].
  - intros Hs t p Hl Ht Hp. unfold calls, generate_mermaid_code.
    destruct (String.eqb_spec api_key EmptyString) as [e|_]; [contradiction|].
    cbv zeta. fold user_input. fold score.
    replace (score <? 6)%Z with false by (symmetry; apply Z.ltb_ge; exact Hs).
    cbv beta iota. rewrite Hl. destruct t as [|a t']; [contradiction|].
    rewrite Hp. reflexivity.
  - intros Hs t p Hl Ht Hp. unfold calls, generate_mermaid_code.
    destruct (String.eqb_spec api_key EmptyString) as [e|_]; [contradiction|].
    cbv zeta. fold user_input. fold score.
    replace (score <? 6)%Z with true by (symmetry; apply Z.ltb_lt; exact Hs).
    cbv beta iota. rewrite Hl. destruct t as [|a t']; [contradiction|].
    rewrite Hp. reflexivity.
Qed.

Lemma refine_iff_low_score_witness :
  fst (generate_mermaid_code (stub_server (ok_reply "9") NetworkError NetworkError)
         "k1" "Pie Chart" " Fruit ")
  = [ScoreReq "k1" "Fruit";
     GenReq "k1" (match py_format prompt_pie_chart "Fruit" with
                  | inr p => p | inl _ => EmptyString end)].
Proof.
  refine (proj1 (proj2 (refine_iff_low_score
            (stub_server (ok_reply "9") NetworkError NetworkError) "k1" "Pie Chart" " Fruit " _))
            _ prompt_pie_chart _ lookup_pie_chart _ _).
  - discriminate.
  - vm_compute. discriminate.
  - vm_compute. discriminate.
  - vm_compute. reflexivity.
Defined.

(** ** C10: the helpers keep no state *)

(** C10. Over any sequence of calls, the module state is left as it was and
    each call returns what it returns alone from the initial state; in
    particular a Gantt task line is numbered [task1] whatever came before. *)
Theorem helpers_stateless : forall cs,
  run_calls initial_state cs = (initial_state, map call_alone cs)
  /\ forall h, snd (run_calls initial_state (h ++ [CallSanitize "Task A :2025-10-01, 5d" "Gantt"]))
               = (map call_alone h ++ [inr "Task A :task1, 2025-10-01, 5d"])%list.
Proof.
  assert (Hrun : forall cs, run_calls initial_state cs = (initial_state, map call_alone cs)).
  { induction cs as [|c cs IH]; [reflexivity|].
    cbn [run_calls]. unfold run_call at 1. rewrite IH. reflexivity. }
  intros cs. split; [apply Hrun|].
  intros h. rewrite Hrun, map_app. cbn [snd map]. reflexivity.
Qed.

(* ================================================================== *)
(** * Further properties of [mermaid_generator.py] *)

(** ** Lines: [split('\n')] and ['\n'.join] *)

Lemma all_chars_app : forall p a b,
  all_chars p (a ++ b) = all_chars p a && all_chars p b.
Proof.
  induction a as [|c a IH]; intros b; [reflexivity|].
  simpl. rewrite IH. apply andb_assoc.
Qed.

Lemma all_chars_rev : forall p s, all_chars p (rev_str s) = all_chars p s.
Proof.
  induction s as [|c s IH]; [reflexivity|].
  simpl. rewrite all_chars_app, IH. simpl. rewrite andb_true_r. apply andb_comm.
Qed.

Lemma concat_cons_nonempty : forall sep a l, l <> [] ->
  String.concat sep (a :: l) = a ++ sep ++ String.concat sep l.
Proof. intros sep a [|b l] H; [congruence|reflexivity]. Qed.

Lemma split_nl_acc_nonempty : forall s acc, split_nl_acc acc s <> [].
Proof.
  induction s as [|c r IH]; intros acc; simpl; [discriminate|].
  destruct (Ascii.eqb c nl); [discriminate|apply IH].
Qed.

Lemma join_split_acc : forall s acc, join_nl (split_nl_acc acc s) = rev_str acc ++ s.
Proof.
  induction s as [|c r IH]; intros acc.
  - simpl. symmetry. apply append_nil_str.
  - cbn [split_nl_acc]. destruct (Ascii.eqb_spec c nl) as [->|_].
    + unfold join_nl. rewrite concat_cons_nonempty by apply split_nl_acc_nonempty.
      fold join_nl. rewrite IH. reflexivity.
    + rewrite IH. cbn [rev_str]. rewrite append_assoc_str. reflexivity.
Qed.

(** ['\n'.join(s.split('\n')) == s] *)
Lemma join_split : forall s, join_nl (split_nl s) = s.
Proof. intros s. apply join_split_acc. Qed.

Lemma split_nl_acc_app : forall l acc rest, no_nl l = true ->
  split_nl_acc acc (l ++ rest) = split_nl_acc (rev_str l ++ acc) rest.
Proof.
  induction l as [|c l IH]; intros acc rest H; [reflexivity|].
  unfold no_nl in H. cbn [all_chars] in H. apply andb_prop in H as [Hc H].
  apply negb_true_iff in Hc.
  cbn [String.append split_nl_acc]. rewrite Hc. rewrite IH by exact H.
  cbn [rev_str]. rewrite append_assoc_str. reflexivity.
Qed.

(** [('\n'.join(ls)).split('\n') == ls] when no line holds a newline. *)
Lemma split_join : forall ls, ls <> [] -> Forall (fun l => no_nl l = true) ls ->
  split_nl (join_nl ls) = ls.
Proof.
  induction ls as [|x ls IH]; intros Hne Hf; [congruence|].
  inversion Hf as [|? ? Hx Hls]; subst.
  destruct ls as [|y ls].
  - unfold split_nl, join_nl. cbn [String.concat].
    rewrite <- (append_nil_str x) at 1. rewrite split_nl_acc_app by exact Hx.
    simpl. rewrite append_nil_str, rev_str_involutive. reflexivity.
  - unfold join_nl. rewrite concat_cons_nonempty by discriminate. fold join_nl.
    unfold split_nl at 1. rewrite split_nl_acc_app by exact Hx.
    rewrite append_nil_str. cbn [nl_s str1 String.append split_nl_acc].
    rewrite Ascii.eqb_refl, rev_str_involutive.
    change (split_nl_acc EmptyString (String.concat nl_s (y :: ls))) with (split_nl (join_nl (y :: ls))).
    rewrite IH by (discriminate || exact Hls). reflexivity.
Qed.

Lemma split_lines_all_acc : forall p s acc,
  all_chars p acc = true -> all_chars p s = true ->
  Forall (fun l => all_chars p l = true) (split_nl_acc acc s).
Proof.
  induction s as [|c r IH]; intros acc Ha Hs.
  - constructor; [rewrite all_chars_rev; exact Ha|constructor].
  - cbn [all_chars] in Hs. apply andb_prop in Hs as [Hc Hs].
    cbn [split_nl_acc]. destruct (Ascii.eqb c nl).
    + constructor; [rewrite all_chars_rev; exact Ha|]. apply IH; [reflexivity|exact Hs].
    + apply IH; [simpl; rewrite Hc; exact Ha|exact Hs].
Qed.

(** Every line of [s.split('\n')] keeps a character property of [s]. *)
Lemma split_lines_all : forall p s, all_chars p s = true ->
  Forall (fun l => all_chars p l = true) (split_nl s).
Proof. intros p s H. apply split_lines_all_acc; [reflexivity|exact H]. Qed.

(** ** Trimming *)

Lemma lstrip_app_nonp : forall p a b, starts_non p b = true -> b <> EmptyString ->
  exists w, lstrip_by p (a ++ b) = w ++ b.
Proof.
  induction a as [|x a IH]; intros b Hb Hne.
  - exists EmptyString. apply lstrip_fixed, Hb.
  - cbn [String.append lstrip_by]. destruct (p x).
    + apply IH; assumption.
    + exists (String x a). reflexivity.
Qed.

Lemma rev_str_nonempty : forall s, s <> EmptyString -> rev_str s <> EmptyString.
Proof.
  intros s H E. apply H. rewrite <- (rev_str_involutive s), E. reflexivity.
Qed.

Lemma rstrip_prefix : forall p k r, k <> EmptyString -> starts_non p (rev_str k) = true ->
  exists w, rstrip_by p (k ++ r) = k ++ w.
Proof.
  intros p k r Hk Hr. unfold rstrip_by. rewrite rev_str_app.
  destruct (lstrip_app_nonp p (rev_str r) (rev_str k) Hr (rev_str_nonempty k Hk)) as [w ->].
  rewrite rev_str_app, rev_str_involutive. exists (rev_str w). reflexivity.
Qed.

Lemma keyword_facts : forall k, In k valid_starts ->
  k <> EmptyString /\ starts_non is_space k = true /\ starts_non is_space (rev_str k) = true
  /\ no_nl k = true.
Proof.
  intros k H.
  repeat (destruct H as [<-|H]; [repeat split; try discriminate; vm_compute; reflexivity|]).
  destruct H.
Qed.

Lemma split_acc_head : forall s acc, exists l0 ls, split_nl_acc acc s = (rev_str acc ++ l0) :: ls.
Proof.
  induction s as [|c r IH]; intros acc.
  - exists EmptyString, []. simpl. rewrite append_nil_str. reflexivity.
  - cbn [split_nl_acc]. destruct (Ascii.eqb c nl).
    + exists EmptyString, (split_nl_acc EmptyString r). rewrite append_nil_str. reflexivity.
    + destruct (IH (String c acc)) as [l0 [ls ->]]. exists (String c l0), ls.
      cbn [rev_str]. rewrite append_assoc_str. reflexivity.
Qed.

Lemma split_head : forall k rest, no_nl k = true ->
  exists l0 ls, split_nl (k ++ rest) = (k ++ l0) :: ls.
Proof.
  intros k rest Hk. unfold split_nl. rewrite split_nl_acc_app by exact Hk.
  destruct (split_acc_head rest (rev_str k ++ EmptyString)) as [l0 [ls ->]].
  exists l0, ls. rewrite append_nil_str, rev_str_involutive. reflexivity.
Qed.

Lemma keyword_line_recognised : forall k l0, In k valid_starts ->
  startswith_any (strip (k ++ l0)) valid_starts = true.
Proof.
  intros k l0 Hin. destruct (keyword_facts k Hin) as [Hne [Hs [Hr _]]].
  unfold strip. rewrite lstrip_fixed.
  - destruct (rstrip_prefix is_space k l0 Hne Hr) as [w ->].
    apply existsb_exists. exists k. split; [exact Hin|apply startswith_app].
  - destruct k as [|c k']; [contradiction|exact Hs].
Qed.

(** ** Results of the two helpers *)

(** [extract_mermaid_code] returns trimmed text and ignores white space
    around its input; [sanitize_mermaid_code] returns trimmed text. *)
Theorem helpers_trimmed :
  (forall text code, extract_mermaid_code text = inr code -> strip code = code)
  /\ (forall text, extract_mermaid_code (strip text) = extract_mermaid_code text)
  /\ (forall code diagram_type,
        strip (sanitize_mermaid_code code diagram_type) = sanitize_mermaid_code code diagram_type).
Proof.
  split; [|split].
  - intros text code. unfold extract_mermaid_code.
    destruct (search_fence (strip text)) as [body|].
    + intros H. injection H as <-. apply strip_idempotent.
    + destruct (first_keyword_line (split_nl (strip text))) as [ls|]; [|discriminate].
      intros H. injection H as <-. apply strip_idempotent.
  - intros text. unfold extract_mermaid_code. rewrite strip_idempotent. reflexivity.
  - intros code diagram_type. unfold sanitize_mermaid_code. apply strip_idempotent.
Qed.

Lemma helpers_trimmed_witness :
  extract_mermaid_code ("pie" ++ nl_s ++ "  A : 1 ") = inr ("pie" ++ nl_s ++ "  A : 1")
  /\ strip ("pie" ++ nl_s ++ "  A : 1") = "pie" ++ nl_s ++ "  A : 1".
Proof.
  split; [vm_compute; reflexivity|].
  apply (proj1 helpers_trimmed ("pie" ++ nl_s ++ "  A : 1 ")). vm_compute. reflexivity.
Defined.

(** A reply that, once trimmed, starts with one of the diagram keywords and
    contains no [```] is returned whole by [extract_mermaid_code], trimmed,
    including every line after the first. *)
Theorem extract_keyword_text : forall text k rest,
  strip text = k ++ rest -> In k valid_starts -> contains fence (strip text) = false ->
  extract_mermaid_code text = inr (strip text).
Proof.
  intros text k rest Hs Hin Hf. unfold extract_mermaid_code.
  rewrite search_fence_none by exact Hf.
  destruct (keyword_facts k Hin) as [_ [_ [_ Hnl]]].
  destruct (split_head k rest Hnl) as [l0 [ls Hsp]].
  rewrite Hs, Hsp. cbn [first_keyword_line].
  rewrite keyword_line_recognised by exact Hin.
  rewrite <- Hsp, join_split, <- Hs, strip_idempotent. reflexivity.
Qed.

Lemma extract_keyword_text_witness :
  extract_mermaid_code (" pie" ++ nl_s ++ "  A : 1" ++ nl_s ++ "Note: done ")
  = inr ("pie" ++ nl_s ++ "  A : 1" ++ nl_s ++ "Note: done").
Proof.
  rewrite (extract_keyword_text (" pie" ++ nl_s ++ "  A : 1" ++ nl_s ++ "Note: done ")
             "pie" (nl_s ++ "  A : 1" ++ nl_s ++ "Note: done")).
  - vm_compute. reflexivity.
  - vm_compute. reflexivity.
  - simpl. tauto.
  - vm_compute. reflexivity.
Defined.

(** ** The sanitizer on code it has nothing to change in *)

Lemma startswith_cons : forall c r d p,
  startswith (String c r) (String d p) = Ascii.eqb d c && startswith r p.
Proof.
  intros c r d p. unfold startswith. cbn [String.prefix].
  destruct (ascii_dec d c) as [<-|n].
  - rewrite Ascii.eqb_refl. reflexivity.
  - apply Ascii.eqb_neq in n. rewrite n. reflexivity.
Qed.

Lemma no_backtick_cons : forall c r, no_backtick (String c r) = true ->
  Ascii.eqb c backtick = false /\ no_backtick r = true.
Proof.
  intros c r H. unfold no_backtick in H. cbn [all_chars] in H.
  apply andb_prop in H as [Hc H]. apply negb_true_iff in Hc. split; assumption.
Qed.

Lemma remove_fences_id : forall s, no_backtick s = true -> remove_fences_go 0 s = s.
Proof.
  induction s as [|c r IH]; intros H; [reflexivity|].
  destruct (no_backtick_cons c r H) as [Hc Hr].
  cbn [remove_fences_go]. rewrite startswith_fence_other by exact Hc.
  rewrite IH by exact Hr. reflexivity.
Qed.

Lemma no_lbrace_cons : forall c r, no_lbrace (String c r) = true ->
  Ascii.eqb c lbrace = false /\ no_lbrace r = true.
Proof.
  intros c r H. unfold no_lbrace in H. cbn [all_chars] in H.
  apply andb_prop in H as [Hc H]. apply negb_true_iff in Hc. split; assumption.
Qed.

Lemma brace_sub_id : forall s prev, no_lbrace s = true -> brace_sub_go prev 0 s = s.
Proof.
  induction s as [|c r IH]; intros prev H; [reflexivity|].
  destruct (no_lbrace_cons c r H) as [Hc Hr].
  cbn [brace_sub_go]. rewrite Hc. cbn [andb]. rewrite IH by exact Hr. reflexivity.
Qed.

Lemma label_sub_id : forall f s, no_lbrace s = true -> label_sub_go f 0 s = s.
Proof.
  intros f. induction s as [|c r IH]; intros H; [reflexivity|].
  destruct (no_lbrace_cons c r H) as [Hc Hr].
  cbn [label_sub_go]. rewrite startswith_cons.
  replace (Ascii.eqb "{"%char c) with false
    by (rewrite Ascii.eqb_sym; symmetry; exact Hc).
  cbn [andb]. rewrite IH by exact Hr. reflexivity.
Qed.

Lemma contains_colon_none : forall s, no_colon s = true -> contains ":" s = false.
Proof.
  induction s as [|c r IH]; intros H; [reflexivity|].
  unfold no_colon in H. cbn [all_chars] in H. apply andb_prop in H as [Hc H].
  apply negb_true_iff in Hc.
  cbn [contains]. rewrite startswith_cons, IH by exact H.
  replace (Ascii.eqb ":"%char c) with false
    by (rewrite Ascii.eqb_sym; symmetry; exact Hc).
  reflexivity.
Qed.

Lemma gantt_loop_id : forall ls n, Forall (fun l => no_colon l = true) ls ->
  gantt_loop ls n = ls.
Proof.
  induction ls as [|l ls IH]; intros n H; [reflexivity|].
  inversion H as [|? ? Hl Hls]; subst.
  cbn [gantt_loop]. unfold is_task_candidate. rewrite contains_colon_none by exact Hl.
  cbn [andb]. rewrite IH by exact Hls. reflexivity.
Qed.

Lemma until_prose_id : forall ls, forallb (fun l => negb (is_prose_line l)) ls = true ->
  until_prose ls = ls.
Proof.
  induction ls as [|l ls IH]; intros H; [reflexivity|].
  cbn [forallb] in H. apply andb_prop in H as [Hl H]. apply negb_true_iff in Hl.
  cbn [until_prose]. unfold is_prose_line in Hl. rewrite Hl, IH by exact H. reflexivity.
Qed.

Lemma until_prose_app : forall ls1 l ls2,
  forallb (fun x => negb (is_prose_line x)) ls1 = true -> is_prose_line l = true ->
  until_prose (ls1 ++ l :: ls2) = ls1.
Proof.
  induction ls1 as [|x ls1 IH]; intros l ls2 H Hl; cbn [app until_prose].
  - unfold is_prose_line in Hl. rewrite Hl. reflexivity.
  - cbn [forallb] in H. apply andb_prop in H as [Hx H]. apply negb_true_iff in Hx.
    unfold is_prose_line in Hx. rewrite Hx, IH by assumption. reflexivity.
Qed.

(** [sanitize_mermaid_code] returns its input unchanged when the input is
    trimmed, holds no backtick and no explanation line, and, for
    [Flowchart], no [{], for [Gantt], no [:]. *)
Theorem sanitize_clean_code : forall code diagram_type,
  strip code = code -> no_backtick code = true ->
  forallb (fun l => negb (is_prose_line l)) (split_nl code) = true ->
  (diagram_type = "Flowchart" -> no_lbrace code = true) ->
  (diagram_type = "Gantt" -> no_colon code = true) ->
  sanitize_mermaid_code code diagram_type = code.
Proof.
  intros code dt Hs Hb Hp Hf Hg. unfold sanitize_mermaid_code. cbv zeta.
  unfold remove_fences. rewrite remove_fences_id by exact Hb. rewrite Hs.
  destruct (String.eqb_spec dt "Flowchart") as [->|Hnf].
  - specialize (Hf eq_refl). unfold brace_sub, quote_sub, punct_sub.
    rewrite brace_sub_id by exact Hf. rewrite !(label_sub_id _ code Hf).
    change (String.eqb "Flowchart" "Gantt") with false. cbv iota.
    rewrite until_prose_id, join_split by exact Hp. exact Hs.
  - destruct (String.eqb_spec dt "Gantt") as [->|Hng].
    + rewrite gantt_loop_id by (apply split_lines_all, Hg; reflexivity).
      rewrite join_split, until_prose_id, join_split by exact Hp. exact Hs.
    + rewrite until_prose_id, join_split by exact Hp. exact Hs.
Qed.

Lemma sanitize_clean_code_witness :
  sanitize_mermaid_code ("flowchart TD" ++ nl_s ++ "  A --> B") "Flowchart"
  = "flowchart TD" ++ nl_s ++ "  A --> B".
Proof.
  apply sanitize_clean_code; try (vm_compute; reflexivity); intros H; discriminate H.
Defined.

(** For the types other than [Flowchart] and [Gantt], once the [```] and
    [```mermaid] markers are removed and the code is trimmed, the lines from
    the first explanation line ([Note:], [Explanation:], [This diagram],
    [The above], in any letter case, after white space) onward are dropped:
    the result is the lines before it, joined and trimmed. *)
Theorem sanitize_cuts_at_explanation : forall code diagram_type ls1 l ls2,
  diagram_type <> "Flowchart" -> diagram_type <> "Gantt" ->
  split_nl (strip (remove_fences code)) = (ls1 ++ l :: ls2)%list ->
  forallb (fun x => negb (is_prose_line x)) ls1 = true -> is_prose_line l = true ->
  sanitize_mermaid_code code diagram_type = strip (join_nl ls1).
Proof.
  intros code dt ls1 l ls2 Hnf Hng Hs Hp Hl. unfold sanitize_mermaid_code. cbv zeta.
  destruct (String.eqb_spec dt "Flowchart") as [e|_]; [contradiction|].
  destruct (String.eqb_spec dt "Gantt") as [e|_]; [contradiction|].
  rewrite Hs, until_prose_app by assumption. reflexivity.
Qed.

Lemma sanitize_cuts_at_explanation_witness :
  sanitize_mermaid_code
    (fence ++ "mermaid" ++ nl_s ++ "pie" ++ nl_s ++ "  A : 1" ++ nl_s
     ++ "  Note: this chart shows A" ++ nl_s ++ "  B : 2" ++ nl_s ++ fence) "Pie Chart"
  = "pie" ++ nl_s ++ "  A : 1".
Proof.
  rewrite (sanitize_cuts_at_explanation _ "Pie Chart" ["pie"; "  A : 1"]
             "  Note: this chart shows A" ["  B : 2"]);
    try (vm_compute; reflexivity); discriminate.
Defined.

(** ** No fence survives the sanitizer *)

Lemma startswith_empty : forall s, startswith s EmptyString = true.
Proof. intros [|c s]; reflexivity. Qed.

Lemma remove_fences_head1 : forall s,
  starts_non (fun c => Ascii.eqb c backtick) s = true ->
  starts_non (fun c => Ascii.eqb c backtick) (remove_fences_go 0 s) = true.
Proof.
  intros [|c r] H; [reflexivity|]. simpl in H. apply negb_true_iff in H.
  cbn [remove_fences_go]. rewrite startswith_fence_other by exact H.
  simpl. rewrite H. reflexivity.
Qed.

Lemma remove_fences_head2 : forall s,
  startswith s (String backtick (str1 backtick)) = false ->
  startswith (remove_fences_go 0 s) (String backtick (str1 backtick)) = false.
Proof.
  intros [|c r] H; [reflexivity|]. unfold str1 in *.
  rewrite startswith_cons in H.
  cbn [remove_fences_go].
  replace (startswith (String c r) fence) with false.
  2:{ unfold fence, str1. rewrite startswith_cons.
      destruct (Ascii.eqb backtick c); [|reflexivity].
      destruct r as [|c2 r2]; [reflexivity|].
      rewrite startswith_cons in H |- *. cbn [andb] in H |- *.
      destruct (Ascii.eqb backtick c2); [|reflexivity].
      rewrite startswith_empty in H. discriminate. }
  rewrite startswith_cons.
  destruct (Ascii.eqb_spec backtick c) as [<-|_]; [|reflexivity].
  cbn [andb] in H |- *.
  destruct r as [|c2 r2]; [reflexivity|].
  rewrite startswith_cons in H. rewrite startswith_empty, andb_true_r in H.
  assert (Hr : starts_non (fun c => Ascii.eqb c backtick) (String c2 r2) = true).
  { simpl. rewrite Ascii.eqb_sym, H. reflexivity. }
  apply remove_fences_head1 in Hr.
  destruct (remove_fences_go 0 (String c2 r2)) as [|c3 r3]; [reflexivity|].
  rewrite startswith_cons. simpl in Hr. apply negb_true_iff in Hr.
  rewrite Ascii.eqb_sym, Hr. reflexivity.
Qed.

(** [re.sub(r"```(?:mermaid)?", "", s)] leaves no [```] in [s]. *)
Lemma remove_fences_no_fence : forall s k, contains fence (remove_fences_go k s) = false.
Proof.
  induction s as [|c r IH]; intros k; [reflexivity|].
  destruct k as [|k]; cbn [remove_fences_go]; [|apply IH].
  destruct (startswith (String c r) fence) eqn:E.
  - destruct (startswith (drop 3 (String c r)) "mermaid"); apply IH.
  - cbn [contains]. rewrite IH, orb_false_r.
    unfold fence in E |- *. rewrite startswith_cons in E |- *.
    destruct (Ascii.eqb backtick c); [|reflexivity].
    cbn [andb] in E |- *. apply remove_fences_head2, E.
Qed.

Lemma prefix_mono : forall p s t, String.prefix p s = true -> String.prefix p (s ++ t) = true.
Proof.
  induction p as [|a p IH]; intros s t H; [destruct (s ++ t); reflexivity|].
  destruct s as [|b s]; [discriminate|].
  cbn [String.append String.prefix] in H |- *.
  destruct (ascii_dec a b); [apply IH, H|discriminate].
Qed.

Lemma contains_app_l : forall sub a b, contains sub a = true -> contains sub (a ++ b) = true.
Proof.
  intros sub. induction a as [|c a IH]; intros b H.
  - cbn [contains] in H. rewrite orb_false_r in H.
    destruct sub as [|d sub]; [|unfold startswith in H; simpl in H; discriminate].
    destruct b; cbn [String.append contains]; rewrite startswith_empty; reflexivity.
  - cbn [String.append contains] in H |- *. apply orb_true_iff in H as [H|H].
    + unfold startswith in *. change (String c (a ++ b)) with (String c a ++ b).
      rewrite (prefix_mono _ _ _ H). reflexivity.
    + rewrite IH by exact H. apply orb_true_r.
Qed.

Lemma contains_app_r : forall sub a b, contains sub b = true -> contains sub (a ++ b) = true.
Proof.
  intros sub. induction a as [|c a IH]; intros b H; [exact H|].
  cbn [String.append contains]. rewrite IH by exact H. apply orb_true_r.
Qed.

Lemma contains_infix : forall sub a x b,
  contains sub (a ++ x ++ b) = false -> contains sub x = false.
Proof.
  intros sub a x b H. destruct (contains sub x) eqn:E; [|reflexivity].
  rewrite <- H. symmetry. apply contains_app_r, contains_app_l, E.
Qed.

Lemma lstrip_suffix : forall p s, exists a, s = a ++ lstrip_by p s.
Proof.
  intros p. induction s as [|c r IH]; [exists EmptyString; reflexivity|].
  cbn [lstrip_by]. destruct (p c).
  - destruct IH as [a Ha]. exists (String c a). simpl. rewrite <- Ha. reflexivity.
  - exists EmptyString. reflexivity.
Qed.

Lemma strip_infix : forall s, exists a b, s = a ++ strip s ++ b.
Proof.
  intros s. destruct (lstrip_suffix is_space s) as [a Ha].
  set (m := lstrip_by is_space s) in *.
  destruct (lstrip_suffix is_space (rev_str m)) as [b Hb].
  exists a, (rev_str b). unfold strip, rstrip_by. fold m.
  rewrite <- rev_str_app, <- Hb, rev_str_involutive. exact Ha.
Qed.

Lemma until_prose_prefix : forall ls, exists rest, ls = (until_prose ls ++ rest)%list.
Proof.
  induction ls as [|l ls IH]; [exists []; reflexivity|].
  cbn [until_prose]. destruct (startswith_any (lower (strip l)) prose_markers).
  - exists (l :: ls). reflexivity.
  - destruct IH as [rest Hr]. exists rest. simpl. rewrite <- Hr. reflexivity.
Qed.

Lemma join_app_prefix : forall l1 l2, exists b, join_nl (l1 ++ l2) = join_nl l1 ++ b.
Proof.
  induction l1 as [|x l1 IH]; intros l2; [exists (join_nl l2); reflexivity|].
  destruct l1 as [|y l1].
  - destruct l2 as [|z l2].
    + exists EmptyString. simpl. rewrite append_nil_str. reflexivity.
    + exists (nl_s ++ join_nl (z :: l2)). reflexivity.
  - destruct (IH l2) as [b Hb]. exists b.
    change ((x :: y :: l1) ++ l2)%list with (x :: ((y :: l1) ++ l2))%list.
    unfold join_nl in *. rewrite !concat_cons_nonempty by discriminate.
    rewrite Hb, !append_assoc_str. reflexivity.
Qed.

Lemma sanitize_fence_free : forall code diagram_type,
  diagram_type <> "Flowchart" -> diagram_type <> "Gantt" ->
  contains fence (sanitize_mermaid_code code diagram_type) = false.
Proof.
  intros code dt Hnf Hng. unfold sanitize_mermaid_code. cbv zeta.
  destruct (String.eqb_spec dt "Flowchart") as [e|_]; [contradiction|].
  destruct (String.eqb_spec dt "Gantt") as [e|_]; [contradiction|].
  set (c1 := strip (remove_fences code)).
  assert (H1 : contains fence c1 = false).
  { destruct (strip_infix (remove_fences code)) as [a [b Hab]].
    apply (contains_infix fence a c1 b). unfold c1. rewrite <- Hab.
    apply remove_fences_no_fence. }
  assert (H2 : contains fence (join_nl (until_prose (split_nl c1))) = false).
  { destruct (until_prose_prefix (split_nl c1)) as [rest Hr].
    destruct (join_app_prefix (until_prose (split_nl c1)) rest) as [b Hb].
    apply (contains_infix fence EmptyString _ b). simpl. rewrite <- Hb, <- Hr.
    rewrite join_split. exact H1. }
  destruct (strip_infix (join_nl (until_prose (split_nl c1)))) as [a [b Hab]].
  apply (contains_infix fence a _ b). rewrite <- Hab. exact H2.
Qed.

(** For every type but [Flowchart] and [Gantt], the result of
    [sanitize_mermaid_code] contains no [```]. For [Flowchart] it can: the
    punctuation cleanup removes a [?] between backticks. *)
Theorem sanitize_no_fence :
  (forall code diagram_type, diagram_type <> "Flowchart" -> diagram_type <> "Gantt" ->
     contains fence (sanitize_mermaid_code code diagram_type) = false)
  /\ sanitize_mermaid_code ("A{" ++ String backtick "?" ++ String backtick (str1 backtick) ++ "}")
       "Flowchart"
     = "A{{" ++ fence ++ "}}".
Proof.
  split; [apply sanitize_fence_free|vm_compute; reflexivity].
Qed.

Lemma sanitize_no_fence_witness :
  contains fence (sanitize_mermaid_code
    (fence ++ "mermaid" ++ nl_s ++ "pie" ++ nl_s ++ "  A : 1" ++ nl_s ++ fence) "Pie Chart")
  = false.
Proof. apply (proj1 sanitize_no_fence); discriminate. Defined.

(** ** [refine_prompt] *)

(** The result of [refine_prompt] is the description it was given (when
    the call fails) or a text that neither starts nor ends with a double
    quote or white space. *)
Theorem refine_prompt_trimmed : forall server api_key user_input,
  let r := refine_prompt server api_key user_input in
  r = user_input
  \/ (starts_non is_quote_or_space r = true /\ starts_non is_quote_or_space (rev_str r) = true).
Proof.
  intros server api_key user_input r. unfold r, refine_prompt.
  destruct (choice_content (server (RefineReq api_key user_input))) as [e|x];
    [left; reflexivity|right].
  unfold strip_quotes. split.
  - apply rstrip_starts_non, lstrip_starts_non.
  - unfold rstrip_by. rewrite rev_str_involutive. apply lstrip_starts_non.
Qed.

(** ** The templates *)

Lemma lookup_in : forall k m v, lookup k m = Some v -> In (k, v) m.
Proof.
  intros k. induction m as [|[k' v'] m IH]; intros v H; [discriminate|].
  cbn [lookup] in H. destruct (String.eqb_spec k k') as [<-|_].
  - injection H as <-. left. reflexivity.
  - right. apply IH, H.
Qed.

(** [str.format] on a template of [PROMPTS]: [Class Diagram] fails, every
    other template splices the description in verbatim, once. *)
Lemma prompts_format_cases : forall dt t, lookup dt PROMPTS = Some t ->
  (dt = "Class Diagram" /\ t = prompt_class_diagram)
  \/ (dt <> "Class Diagram" /\ exists pre post, forall d, py_format t d = inr (pre ++ d ++ post)).
Proof.
  intros dt t H. apply lookup_in in H. unfold PROMPTS in H.
  repeat (destruct H as [H|H]; [injection H as <- <-|]); try (destruct H).
  all: first [ left; split; reflexivity
             | right; split; [discriminate|];
               match goal with |- exists pre post, forall d, py_format ?t d = _ =>
                 let p0 := eval vm_compute in
                   (match py_format t "~" with inr p => p | inl _ => EmptyString end) in
                 let k := eval vm_compute in
                   (match String.index 0 "~" p0 with Some k => k | None => 0 end) in
                 exists (take k p0), (drop (S k) p0)
               end;
               intros d; vm_compute; reflexivity ].
Qed.

(** For every supported type but [Class Diagram], the final prompt is a
    fixed text with the description inserted once, verbatim: braces in the
    description are not read as replacement fields. *)
Theorem template_inserts_description : forall dt t,
  lookup dt PROMPTS = Some t -> dt <> "Class Diagram" ->
  exists pre post, forall d, py_format t d = inr (pre ++ d ++ post).
Proof.
  intros dt t Hl Hc.
  destruct (prompts_format_cases dt t Hl) as [[e _]|[_ H]]; [contradiction|exact H].
Qed.

Lemma template_inserts_description_witness :
  exists pre post, forall d, py_format prompt_pie_chart d = inr (pre ++ d ++ post).
Proof. apply (template_inserts_description "Pie Chart"); [reflexivity|discriminate]. Defined.

(** ** Requests and exceptions of [generate_mermaid_code] *)

(** With an empty credential nothing is sent. Otherwise the scoring request
    for the stripped description goes first, at most three requests are
    sent, all with the caller's credential, and a generation request can
    only be the last one. *)
Theorem generate_requests : forall server api_key dt description,
  let calls := fst (generate_mermaid_code server api_key dt description) in
  (api_key = EmptyString -> calls = [])
  /\ (api_key <> EmptyString ->
        hd_error calls = Some (ScoreReq api_key (strip description))
        /\ List.length calls <= 3
        /\ Forall (fun r => req_key r = api_key) calls
        /\ forall r, In r (removelast calls) -> is_gen r = false).
Proof.
  intros server api_key dt description calls. split.
  - intros ->. reflexivity.
  - intros Hk. unfold calls.
    destruct (generate_calls_shape server api_key dt description Hk) as [-> | [p ->]];
      unfold pre_lookup_calls;
      destruct (score_prompt server api_key (strip description) <? 6)%Z; simpl;
      (split; [reflexivity|]); (split; [lia|]);
      (split; [repeat constructor|]);
      intros r Hr; repeat (destruct Hr as [<-|Hr]; [reflexivity|]); destruct Hr.
Qed.

Lemma generate_requests_witness :
  hd_error (fst (generate_mermaid_code (const_server NetworkError) "k1" "Pie Chart" " Fruit "))
  = Some (ScoreReq "k1" "Fruit").
Proof. apply (generate_requests (const_server NetworkError) "k1" "Pie Chart" " Fruit "). discriminate. Defined.

Lemma generation_call_error : forall dt rep e,
  generation_call dt rep = inl e -> exists m, e = ConnectionError m.
Proof.
  intros dt rep e. unfold generation_call.
  destruct (generation_try dt rep) as [e'|c]; [|discriminate].
  destruct (is_value_error e'); intros H; injection H as <-; eexists; reflexivity.
Qed.

(** The exceptions [generate_mermaid_code] raises: [ValueError] for an
    empty credential; [ValueError] for an unsupported type or [KeyError] for
    [Class Diagram], with no generation request sent; a [ConnectionError]
    once the generation request has been sent. *)
Theorem generate_exceptions : forall server api_key dt description e,
  snd (generate_mermaid_code server api_key dt description) = inl e ->
  let calls := fst (generate_mermaid_code server api_key dt description) in
  (api_key = EmptyString /\ e = ValueError NoApiKey)
  \/ (existsb is_gen calls = false
      /\ (e = ValueError (UnsupportedType dt) \/ (dt = "Class Diagram" /\ e = KeyError)))
  \/ (existsb is_gen calls = true /\ exists m, e = ConnectionError m).
Proof.
  intros server api_key dt description e H0 calls. unfold calls. revert H0.
  unfold generate_mermaid_code.
  destruct (String.eqb_spec api_key EmptyString) as [->|Hk].
  { intros Hres. injection Hres as <-. left. split; reflexivity. }
  intros Hres. right. revert Hres. cbv zeta.
  destruct (score_prompt server api_key (strip description) <? 6)%Z; cbv beta iota;
    (destruct (lookup dt PROMPTS) as [t|] eqn:Hl;
     [|intros Hres; injection Hres as <-; left; split; [reflexivity|left; reflexivity]]);
    (destruct t as [|a t'];
     [intros Hres; injection Hres as <-; left; split; [reflexivity|left; reflexivity]|]);
    cbv beta iota; (match goal with |- context [py_format ?T ?D] =>
       destruct (py_format T D) as [e'|p] eqn:Hp end;
     [ intros Hres; injection Hres as <-; left; split; [reflexivity|right];
       destruct (prompts_format_cases dt _ Hl) as [[-> Ht]|[_ [pre [post Hf]]]];
       [ rewrite Ht, format_class_diagram in Hp; injection Hp as <-; split; reflexivity
       | rewrite Hf in Hp; discriminate ]
     | intros Hres; right; split;
       [ cbn [fst]; rewrite existsb_app; apply orb_true_r
       | apply (generation_call_error dt _ e Hres) ] ]).
Qed.

Lemma generate_exceptions_witness :
  exists m, snd (generate_mermaid_code (const_server NetworkError) "k1" "Pie Chart" "Fruit")
            = inl (ConnectionError m).
Proof.
  destruct (generate_exceptions (const_server NetworkError) "k1" "Pie Chart" "Fruit"
              (ConnectionError (ApiFailed TransportError)))
    as [[H _]|[[H _]|[_ [m Hm]]]].
  - vm_compute. reflexivity.
  - discriminate H.
  - vm_compute in H. discriminate H.
  - exists m. rewrite <- Hm. vm_compute. reflexivity.
Defined.

Lemma generation_call_ok : forall dt rep code,
  generation_call dt rep = inr code -> exists m, code = sanitize_mermaid_code m dt.
Proof.
  intros dt rep code. unfold generation_call.
  destruct (generation_try dt rep) as [e|c] eqn:E.
  - destruct (is_value_error e); discriminate.
  - intros H. injection H as <-. revert E. unfold generation_try.
    destruct rep as [|status body]; [discriminate|].
    destruct (raise_for_status status); [discriminate|]. cbn [bind].
    destruct (response_json body); [discriminate|]. cbn [bind].
    destruct (py_get _ _ _); [discriminate|]. cbn [bind].
    destruct (negb _); [discriminate|].
    destruct (getitem_0 _); [discriminate|]. cbn [bind].
    destruct (py_get _ _ _); [discriminate|]. cbn [bind].
    destruct (py_get _ _ _); [discriminate|]. cbn [bind].
    destruct (strip_json _); [discriminate|]. cbn [bind].
    destruct (String.eqb _ _); [discriminate|].
    destruct (extract_mermaid_code _) as [|m]; [discriminate|]. cbn [bind ret].
    intros H. injection H as <-. exists m. reflexivity.
Qed.

(** A successful run of [generate_mermaid_code] has sent the generation
    request, last, and returns trimmed text; for the types other than
    [Flowchart] and [Gantt] the text contains no [```]. *)
Theorem generate_success : forall server api_key dt description code,
  snd (generate_mermaid_code server api_key dt description) = inr code ->
  (exists p, last (fst (generate_mermaid_code server api_key dt description)) (ScoreReq "" "")
             = GenReq api_key p)
  /\ strip code = code
  /\ (dt <> "Flowchart" -> dt <> "Gantt" -> contains fence code = false).
Proof.
  intros server api_key dt description code. unfold generate_mermaid_code.
  destruct (String.eqb api_key EmptyString); [discriminate|]. cbv zeta.
  destruct (score_prompt server api_key (strip description) <? 6)%Z; cbv beta iota;
    (destruct (lookup dt PROMPTS) as [[|a t']|]; [discriminate| |discriminate]);
    cbv beta iota; (match goal with |- context [py_format ?T ?D] =>
       destruct (py_format T D) as [e|p] end; [discriminate|]);
    intros H; cbn [snd] in H; destruct (generation_call_ok _ _ _ H) as [m ->];
    (split; [exists p; reflexivity|]);
    (split; [unfold sanitize_mermaid_code; apply strip_idempotent|]);
    intros Hnf Hng; apply sanitize_fence_free; assumption.
Qed.

Lemma generate_success_witness :
  snd (generate_mermaid_code (stub_server (ok_reply "9") NetworkError (ok_reply "pie")) "k1"
         "Pie Chart" "Fruit") = inr "pie"
  /\ contains fence "pie" = false.
Proof.
  split; [vm_compute; reflexivity|].
  apply (generate_success (stub_server (ok_reply "9") NetworkError (ok_reply "pie")) "k1"
           "Pie Chart" "Fruit" "pie"); [vm_compute; reflexivity|discriminate|discriminate].
Defined.

(** ** The fenced block *)

Lemma prefix_drop : forall p s, startswith s p = true -> s = p ++ drop (String.length p) s.
Proof.
  induction p as [|a p IH]; intros s H; [reflexivity|].
  destruct s as [|c s]; [discriminate|].
  rewrite startswith_cons in H. apply andb_prop in H as [Ha H].
  apply Ascii.eqb_eq in Ha as ->. cbn [String.append String.length drop].
  rewrite <- IH by exact H. reflexivity.
Qed.

Lemma find_fence_spec : forall s b a, find_fence s = Some (b, a) ->
  s = b ++ fence ++ a /\ contains fence b = false.
Proof.
  induction s as [|c r IH]; intros b a H; [discriminate|].
  cbn [find_fence] in H. destruct (startswith (String c r) fence) eqn:E.
  - injection H as <- <-. split; [|reflexivity].
    apply (prefix_drop fence (String c r) E).
  - destruct (find_fence r) as [[b' a']|] eqn:F; [|discriminate].
    injection H as <- <-. destruct (IH b' a' eq_refl) as [Hr Hb].
    split; [rewrite Hr; reflexivity|].
    cbn [contains]. rewrite Hb, orb_false_r.
    destruct (startswith (String c b') fence) eqn:E2; [|reflexivity].
    rewrite <- E. rewrite Hr. unfold startswith in *.
    change (String c (b' ++ fence ++ a')) with (String c b' ++ fence ++ a').
    symmetry. apply prefix_mono, E2.
Qed.

Lemma fence_at_body : forall s body, fence_at s = Some body -> contains fence body = false.
Proof.
  intros s body. unfold fence_at.
  destruct (startswith s fence); [|discriminate]. cbv zeta.
  destruct (if startswith (drop 3 s) ("mermaid" ++ nl_s) then find_fence (drop 8 (drop 3 s))
            else None) as [[b a]|] eqn:E.
  - intros H. injection H as <-.
    destruct (startswith (drop 3 s) ("mermaid" ++ nl_s)); [|discriminate].
    apply (find_fence_spec _ _ _ E).
  - destruct (startswith (drop 3 s) nl_s); [|discriminate].
    destruct (find_fence (drop 1 (drop 3 s))) as [[b a]|] eqn:F; [|discriminate].
    intros H. injection H as <-. apply (find_fence_spec _ _ _ F).
Qed.

Lemma search_fence_body : forall s body, search_fence s = Some body -> contains fence body = false.
Proof.
  induction s as [|c r IH]; intros body H; cbn [search_fence] in H.
  - destruct (fence_at EmptyString) eqn:E; [|discriminate].
    injection H as <-. apply (fence_at_body _ _ E).
  - destruct (fence_at (String c r)) eqn:E.
    + injection H as <-. apply (fence_at_body _ _ E).
    + apply IH, H.
Qed.

Lemma contains_strip : forall sub s, contains sub s = false -> contains sub (strip s) = false.
Proof.
  intros sub s H. destruct (strip_infix s) as [a [b Hab]].
  apply (contains_infix sub a _ b). rewrite <- Hab. exact H.
Qed.

(** When the trimmed reply holds a fenced block, [extract_mermaid_code]
    returns the trimmed interior of the leftmost one, which holds no
    [```]. *)
Theorem extract_fenced_body : forall text body,
  search_fence (strip text) = Some body ->
  extract_mermaid_code text = inr (strip body) /\ contains fence (strip body) = false.
Proof.
  intros text body H. split.
  - unfold extract_mermaid_code. rewrite H. reflexivity.
  - apply contains_strip, (search_fence_body _ _ H).
Qed.

Lemma extract_fenced_body_witness :
  extract_mermaid_code ("Sure:" ++ nl_s ++ fence ++ "mermaid" ++ nl_s ++ "pie" ++ nl_s ++ fence)
  = inr "pie".
Proof.
  apply (extract_fenced_body ("Sure:" ++ nl_s ++ fence ++ "mermaid" ++ nl_s ++ "pie" ++ nl_s ++ fence)
           ("pie" ++ nl_s)).
  vm_compute. reflexivity.
Defined.

(** ** C2 and C7: the blocks of the extraction pattern *)

Lemma prefix_app_long : forall p x y, String.length p <= String.length x ->
  String.prefix p (x ++ y) = String.prefix p x.
Proof.
  induction p as [|a p IH]; intros x y H; [destruct x; [destruct y|]; reflexivity|].
  destruct x as [|b x]; [cbn in H; lia|].
  cbn [String.append String.prefix]. destruct (ascii_dec a b); [|reflexivity].
  apply IH. cbn in H. lia.
Qed.

Lemma startswith_fence_before : forall c b rest,
  startswith (String c (b ++ fence ++ rest)) fence
  = startswith (String c (b ++ (String backtick (str1 backtick)))) fence.
Proof.
  intros c b rest. unfold startswith.
  replace (String c (b ++ fence ++ rest))
    with (String c (b ++ (String backtick (str1 backtick))) ++ (str1 backtick ++ rest)).
  - apply prefix_app_long. change (String.length fence) with 3.
    cbn [String.length]. rewrite length_append_str.
    change (String.length (String backtick (str1 backtick))) with 2. lia.
  - cbn [String.append]. f_equal. rewrite append_assoc_str. reflexivity.
Qed.

Lemma find_fence_first : forall body post,
  contains fence (body ++ (String backtick (str1 backtick))) = false ->
  find_fence (body ++ fence ++ post) = Some (body, post).
Proof.
  induction body as [|c body IH]; intros post H.
  - change (EmptyString ++ fence ++ post) with (fence ++ post).
    assert (E : fence ++ post = String backtick (String backtick (String backtick post)))
      by reflexivity.
    rewrite E. cbn [find_fence]. rewrite <- E, startswith_app.
    change 3 with (String.length fence). rewrite drop_app. reflexivity.
  - cbn [String.append contains] in H. apply orb_false_iff in H as [H1 H2].
    cbn [String.append find_fence]. rewrite startswith_fence_before, H1.
    rewrite IH by exact H2. reflexivity.
Qed.

Lemma find_fence_first_spec : forall s b a, find_fence s = Some (b, a) ->
  s = b ++ fence ++ a /\ contains fence (b ++ (String backtick (str1 backtick))) = false.
Proof.
  induction s as [|c r IH]; intros b a H; [discriminate|].
  cbn [find_fence] in H. destruct (startswith (String c r) fence) eqn:E.
  - injection H as <- <-. split; [apply (prefix_drop fence (String c r) E)|reflexivity].
  - destruct (find_fence r) as [[b' a']|] eqn:F; [|discriminate].
    injection H as <- <-. destruct (IH b' a' eq_refl) as [Hr Hb].
    split; [rewrite Hr; reflexivity|].
    cbn [String.append contains]. rewrite Hb, orb_false_r.
    rewrite <- E, Hr. symmetry. apply startswith_fence_before.
Qed.

(** The matcher at one position finds exactly the blocks starting there. *)
Lemma block_at_fence_at : forall s body, block_at s body -> fence_at s = Some body.
Proof.
  intros s body [tag [post [Htag [-> Hb]]]].
  unfold fence_at. rewrite startswith_app. cbv zeta. rewrite drop_fence.
  destruct Htag as [-> | ->].
  - change (EmptyString ++ nl_s ++ body ++ fence ++ post) with (nl_s ++ body ++ fence ++ post).
    replace (startswith (nl_s ++ body ++ fence ++ post) ("mermaid" ++ nl_s)) with false
      by reflexivity.
    rewrite startswith_app, drop_nl, find_fence_first by exact Hb. reflexivity.
  - rewrite <- (append_assoc_str "mermaid" nl_s), startswith_app.
    rewrite append_assoc_str, drop_mermaid_nl, find_fence_first by exact Hb. reflexivity.
Qed.

Lemma fence_at_block_at : forall s body, fence_at s = Some body -> block_at s body.
Proof.
  intros s body. unfold fence_at.
  destruct (startswith s fence) eqn:E1; [|discriminate]. cbv zeta.
  pose proof (prefix_drop fence s E1) as Hs. change (String.length fence) with 3 in Hs.
  set (r := drop 3 s) in *.
  assert (Hnl : startswith r nl_s = true ->
                forall a, find_fence (drop 1 r) = Some (body, a) -> block_at s body).
  { intros E3 a F. destruct (find_fence_first_spec _ _ _ F) as [Hr Hb].
    pose proof (prefix_drop nl_s r E3) as Hr1. change (String.length nl_s) with 1 in Hr1.
    exists EmptyString, a. split; [left; reflexivity|split; [|exact Hb]].
    rewrite Hs, Hr1, Hr. reflexivity. }
  destruct (startswith r ("mermaid" ++ nl_s)) eqn:E2.
  - destruct (find_fence (drop 8 r)) as [[b a]|] eqn:F.
    + intros H. injection H as <-. destruct (find_fence_first_spec _ _ _ F) as [Hr Hb].
      pose proof (prefix_drop ("mermaid" ++ nl_s) r E2) as Hr8.
      change (String.length ("mermaid" ++ nl_s)) with 8 in Hr8.
      exists "mermaid", a. split; [right; reflexivity|split; [|exact Hb]].
      rewrite Hs, Hr8, Hr, append_assoc_str. reflexivity.
    + destruct (startswith r nl_s) eqn:E3; [|discriminate].
      destruct (find_fence (drop 1 r)) as [[b a]|] eqn:F1; [|discriminate].
      intros H. injection H as <-. exact (Hnl eq_refl a eq_refl).
  - destruct (startswith r nl_s) eqn:E3; [|discriminate].
    destruct (find_fence (drop 1 r)) as [[b a]|] eqn:F1; [|discriminate].
    intros H. injection H as <-. exact (Hnl eq_refl a eq_refl).
Qed.

Lemma search_fence_unfold : forall s, search_fence s =
  match fence_at s with
  | Some b => Some b
  | None => match s with EmptyString => None | String _ r => search_fence r end
  end.
Proof. destruct s; reflexivity. Qed.

(** [re.search] returns the block of the leftmost position holding one. *)
Lemma search_fence_leftmost : forall pre s body,
  block_at s body ->
  (forall p1 p2 b, pre = p1 ++ p2 -> p2 <> EmptyString -> ~ block_at (p2 ++ s) b) ->
  search_fence (pre ++ s) = Some body.
Proof.
  induction pre as [|c pre IH]; intros s body Hb Hl.
  - cbn [String.append]. rewrite search_fence_unfold, (block_at_fence_at _ _ Hb). reflexivity.
  - cbn [String.append]. rewrite search_fence_unfold.
    destruct (fence_at (String c (pre ++ s))) as [b|] eqn:E.
    + exfalso. apply (Hl EmptyString (String c pre) b eq_refl ltac:(discriminate)).
      apply fence_at_block_at, E.
    + apply IH; [exact Hb|]. intros p1 p2 b Hp. apply (Hl (String c p1) p2 b).
      rewrite Hp. reflexivity.
Qed.

Lemma search_fence_no_block : forall t,
  (forall pre s b, t = pre ++ s -> ~ block_at s b) -> search_fence t = None.
Proof.
  induction t as [|c r IH]; intros H; rewrite search_fence_unfold;
    match goal with |- context [fence_at ?x] => destruct (fence_at x) as [b|] eqn:E end.
  - exfalso. apply (H EmptyString EmptyString b eq_refl), fence_at_block_at, E.
  - reflexivity.
  - exfalso. apply (H EmptyString (String c r) b eq_refl), fence_at_block_at, E.
  - apply IH. intros pre s b Hr. apply (H (String c pre) s b). rewrite Hr. reflexivity.
Qed.

Lemma search_fence_none_no_block : forall t, search_fence t = None ->
  forall pre s b, t = pre ++ s -> ~ block_at s b.
Proof.
  intros t Ht pre. revert t Ht. induction pre as [|c pre IH]; intros t Ht s b -> Hb.
  - cbn [String.append] in Ht.
    rewrite search_fence_unfold, (block_at_fence_at _ _ Hb) in Ht. discriminate.
  - cbn [String.append] in Ht. revert Ht. rewrite search_fence_unfold.
    destruct (fence_at (String c (pre ++ s))); [intros E; discriminate E|intros Ht].
    exact (IH _ Ht s b eq_refl Hb).
Qed.

Lemma no_backtick_no_block : forall pre s p1 p2 b, no_backtick pre = true ->
  pre = p1 ++ p2 -> p2 <> EmptyString -> ~ block_at (p2 ++ s) b.
Proof.
  intros pre s p1 p2 b Hn -> Hne [tag [post [_ [E _]]]].
  unfold no_backtick in Hn. rewrite all_chars_app in Hn. apply andb_prop in Hn as [_ Hn].
  destruct p2 as [|c p2]; [contradiction|].
  cbn [String.append] in E. unfold fence in E. injection E as Ec _. subst c.
  cbn [all_chars] in Hn. apply andb_prop in Hn as [Hc _].
  rewrite Ascii.eqb_refl in Hc. discriminate.
Qed.

Lemma extract_no_payload : forall txt,
  (forall pre s b, strip txt = pre ++ s -> ~ block_at s b) ->
  forallb (fun x => negb (startswith_any (strip x) valid_starts)) (split_nl (strip txt)) = true ->
  extract_mermaid_code txt = inl (ValueError (NoMermaid (take 200 (strip txt)))).
Proof.
  intros txt Hf Hk. unfold extract_mermaid_code.
  rewrite (search_fence_no_block _ Hf), first_keyword_line_none by exact Hk. reflexivity.
Qed.

(** C2 (amended). Rule 1: when the stripped text is [pre ++ s], a block
    (three backticks, an optional [mermaid] tag, a newline, the body, the
    first three backticks that follow) starts [s], and no block starts at
    an earlier position, the trimmed body is returned, whatever [pre] holds
    (keyword lines included). Rule 2: when no block starts anywhere in the
    stripped text, the suffix starting at the first line whose trimmed
    content starts with one of the leading keywords is returned, trimmed. *)
Theorem extract_rules_in_order :
  (forall text pre s body,
     strip text = pre ++ s -> block_at s body ->
     (forall p1 p2 b, pre = p1 ++ p2 -> p2 <> EmptyString -> ~ block_at (p2 ++ s) b) ->
     extract_mermaid_code text = inr (strip body))
  /\
  (forall text ls1 l ls2,
     (forall pre s body, strip text = pre ++ s -> ~ block_at s body) ->
     split_nl (strip text) = (ls1 ++ l :: ls2)%list ->
     forallb (fun x => negb (startswith_any (strip x) valid_starts)) ls1 = true ->
     startswith_any (strip l) valid_starts = true ->
     extract_mermaid_code text = inr (strip (join_nl (l :: ls2)))).
Proof.
  split.
  - intros text pre s body E Hb Hl.
    unfold extract_mermaid_code. rewrite E, (search_fence_leftmost pre s body Hb Hl).
    reflexivity.
  - intros text ls1 l ls2 Hn Hs H1 H2.
    unfold extract_mermaid_code. rewrite (search_fence_no_block _ Hn).
    rewrite Hs, first_keyword_line_app by assumption. reflexivity.
Qed.

(** Rule 1 with a keyword line before the block; rule 2 on a block tagged
    [js], which is no block. *)
Lemma extract_rules_in_order_witness :
  extract_mermaid_code ("graph LR" ++ nl_s ++ fence ++ "mermaid" ++ nl_s ++ "pie" ++ nl_s ++ fence)
    = inr "pie"
  /\ extract_mermaid_code (fence ++ "js" ++ nl_s ++ "flowchart TD" ++ nl_s ++ fence)
    = inr ("flowchart TD" ++ nl_s ++ fence).
Proof.
  split.
  - apply (proj1 extract_rules_in_order _ ("graph LR" ++ nl_s)
             (fence ++ "mermaid" ++ nl_s ++ "pie" ++ nl_s ++ fence) ("pie" ++ nl_s)).
    + vm_compute. reflexivity.
    + exists "mermaid", EmptyString.
      split; [right; reflexivity|split; [reflexivity|vm_compute; reflexivity]].
    + intros p1 p2 b Hp Hne.
      apply (no_backtick_no_block ("graph LR" ++ nl_s) _ p1 p2 b); [vm_compute; reflexivity|exact Hp|exact Hne].
  - eapply eq_trans.
    { apply (proj2 extract_rules_in_order _ [fence ++ "js"] "flowchart TD" [fence]).
      - apply search_fence_none_no_block. vm_compute. reflexivity.
      - vm_compute. reflexivity.
      - vm_compute. reflexivity.
      - vm_compute. reflexivity. }
    vm_compute. reflexivity.
Defined.

(** C7 (amended). Once the credential is non-empty and the template
    formats, the outcome of [generate_mermaid_code] is: for a reply text
    that is not blank, holds no block and no keyword line, a
    [ConnectionError] carrying the extraction [ValueError] with the first
    (at most) 200 characters of the stripped text; for a 2xx response whose
    [choices] is absent or falsy, and for a blank content, a
    [ConnectionError] with the same [InvalidMermaid] wrapping; for a
    network failure and for every non-2xx status, a [ConnectionError] of
    the same class with the [ApiFailed] wrapping. *)
Theorem generation_error_kinds : forall rs rr api_key dt description t,
  api_key <> EmptyString -> lookup dt PROMPTS = Some t -> t <> EmptyString ->
  (forall d, exists p, py_format t d = inr p) ->
  let run rg := snd (generate_mermaid_code (stub_server rs rr rg) api_key dt description) in
  (forall txt, strip txt <> EmptyString ->
     (forall pre s body, strip txt = pre ++ s -> ~ block_at s body) ->
     forallb (fun x => negb (startswith_any (strip x) valid_starts)) (split_nl (strip txt)) = true ->
     run (ok_reply txt)
       = inl (ConnectionError (InvalidMermaid (ValueError (NoMermaid (take 200 (strip txt))))))
     /\ String.length (take 200 (strip txt)) <= 200)
  /\ (forall status kvs, (200 <= status < 300)%Z ->
        (forall v, lookup_json "choices" kvs = Some v -> truthy v = false) ->
        run (Response status (Some (JObj kvs)))
          = inl (ConnectionError (InvalidMermaid (ValueError NoChoices))))
  /\ (forall txt, strip txt = EmptyString ->
        run (ok_reply txt) = inl (ConnectionError (InvalidMermaid (ValueError EmptyResponse))))
  /\ run NetworkError = inl (ConnectionError (ApiFailed TransportError))
  /\ (forall status body, ~ (200 <= status < 300)%Z ->
        run (Response status body) = inl (ConnectionError (ApiFailed (HTTPStatusError status)))).
Proof.
  intros rs rr api_key dt description t Hk Hl Ht Hf run.
  assert (Hrun : forall rg, run rg = generation_call dt rg)
    by (intros rg; exact (generate_reaches_generation rs rr rg api_key dt description t Hk Hl Ht Hf)).
  split; [|split; [|split; [|split]]].
  - intros txt He Hb Hw. rewrite Hrun. split; [|apply take_length].
    unfold generation_call. rewrite generation_try_ok_reply.
    destruct (String.eqb_spec (strip txt) EmptyString) as [E|_]; [contradiction|].
    rewrite extract_no_payload; rewrite ?strip_idempotent; try assumption. reflexivity.
  - intros status kvs Hs Hc. rewrite Hrun.
    assert (Hb : ((200 <=? status) && (status <? 300))%Z = true)
      by (apply andb_true_intro; split; [apply Z.leb_le|apply Z.ltb_lt]; lia).
    unfold generation_call, generation_try, raise_for_status. rewrite Hb.
    unfold py_get. cbn [bind ret response_json].
    destruct (lookup_json "choices" kvs) as [v|] eqn:E.
    + cbn [bind ret]. rewrite (Hc v eq_refl). reflexivity.
    + reflexivity.
  - intros txt He. rewrite Hrun. unfold generation_call.
    rewrite generation_try_ok_reply, He. reflexivity.
  - rewrite Hrun. reflexivity.
  - intros status body Hs. rewrite Hrun.
    assert (Hb : ((200 <=? status) && (status <? 300))%Z = false).
    { destruct (Z.leb_spec 200 status); destruct (Z.ltb_spec status 300);
        try reflexivity; lia. }
    unfold generation_call, generation_try, raise_for_status. rewrite Hb. reflexivity.
Qed.

Lemma generation_error_kinds_witness :
  snd (generate_mermaid_code
         (stub_server (ok_reply "9") NetworkError
            (ok_reply (fence ++ "js" ++ nl_s ++ "Decision" ++ nl_s ++ fence)))
         "k1" "Pie Chart" "Fruit")
  = inl (ConnectionError (InvalidMermaid (ValueError
           (NoMermaid (fence ++ "js" ++ nl_s ++ "Decision" ++ nl_s ++ fence)))))
  /\ snd (generate_mermaid_code
           (stub_server (ok_reply "9") NetworkError (Response 200 (Some (JObj [("choices", JArr [])]))))
           "k1" "Pie Chart" "Fruit")
     = inl (ConnectionError (InvalidMermaid (ValueError NoChoices)))
  /\ snd (generate_mermaid_code (stub_server (ok_reply "9") NetworkError (Response 404 None))
           "k1" "Pie Chart" "Fruit")
     = inl (ConnectionError (ApiFailed (HTTPStatusError 404))).
Proof.
  pose proof (generation_error_kinds (ok_reply "9") NetworkError "k1" "Pie Chart" "Fruit"
                prompt_pie_chart ltac:(discriminate) lookup_pie_chart
                ltac:(vm_compute; discriminate) format_pie_chart) as H.
  cbv zeta in H. destruct H as [H1 [H2 [_ [_ H5]]]].
  split; [|split].
  - assert (Hne : strip (fence ++ "js" ++ nl_s ++ "Decision" ++ nl_s ++ fence) <> EmptyString)
      by (vm_compute; discriminate).
    assert (Hnb : forall pre s b,
               strip (fence ++ "js" ++ nl_s ++ "Decision" ++ nl_s ++ fence) = pre ++ s ->
               ~ block_at s b)
      by (apply search_fence_none_no_block; vm_compute; reflexivity).
    assert (Hkw : forallb (fun x => negb (startswith_any (strip x) valid_starts))
                    (split_nl (strip (fence ++ "js" ++ nl_s ++ "Decision" ++ nl_s ++ fence)))
                  = true) by (vm_compute; reflexivity).
    rewrite (proj1 (H1 _ Hne Hnb Hkw)). vm_compute. reflexivity.
  - apply H2; [lia|]. intros v E. injection E as <-. reflexivity.
  - apply H5. lia.
Defined.
